(** * Session lifecycle manager: a shallow embedding of
      [lib/session_management_system.py] and the properties of its
      specification.

    Time is an integer number of microseconds (the resolution of Python's
    [datetime]); the system clock, the remote action gateway, the two
    hash functions of [hashlib] and the pattern language of [pathlib] are
    the environment of the manager.  Session objects are mutable and
    shared between the cache and the callers, so they live in a heap and
    are passed around by location.  Values have the types the source
    declares for them. *)

From Stdlib Require Import ZArith String Ascii DecimalString.
From Stdlib Require DecimalPos DecimalZ.
From stdpp Require Import base option list gmap strings fin_maps.

Local Open Scope Z_scope.

(** ** Data model *)

(** [class SessionState(Enum)] *)
Inductive SessionState :=
| UNINITIALIZED | INITIALIZING | ACTIVE | RATE_LIMITED
| EXPIRED | BLOCKED | ERROR.

#[global] Instance SessionState_eq_dec : EqDecision SessionState.
Proof. solve_decision. Defined.

(** the [.value] of a state *)
Definition state_value (s : SessionState) : string :=
  match s with
  | UNINITIALIZED => "uninitialized"
  | INITIALIZING => "initializing"
  | ACTIVE => "active"
  | RATE_LIMITED => "rate_limited"
  | EXPIRED => "expired"
  | BLOCKED => "blocked"
  | ERROR => "error"
  end.

(** [datetime] values and [timedelta]s, in microseconds *)
Module Time.
Definition t := Z.
Definition seconds (n : Z) : Z := n * 1000000.
Definition hours (n : Z) : Z := seconds (n * 3600).
Definition days (n : Z) : Z := hours (n * 24).
End Time.

(** a cookie is an opaque dictionary *)
Abbreviation Cookie := (gmap string string).
Abbreviation StrDict := (gmap string string).

(** [@dataclass class SessionData] *)
Record SessionData := mkSession {
  platform : string;
  session_id : string;
  cookies : list Cookie;
  local_storage : StrDict;
  session_storage : StrDict;
  auth_tokens : StrDict;
  user_agent : string;
  viewport : gmap string Z;
  state : SessionState;
  created_at : Time.t;
  expires_at : Time.t;
  last_activity : Time.t;
  rate_limit_reset : option Time.t;
  request_count : Z;
  max_requests_per_hour : Z;
  fingerprint : string
}.

(** attribute assignments [session.f = v] *)
Definition set_state (v : SessionState) (s : SessionData) : SessionData :=
  mkSession (platform s) (session_id s) (cookies s) (local_storage s)
    (session_storage s) (auth_tokens s) (user_agent s) (viewport s)
    v (created_at s) (expires_at s) (last_activity s)
    (rate_limit_reset s) (request_count s) (max_requests_per_hour s)
    (fingerprint s).

Definition set_cookies (v : list Cookie) (s : SessionData) : SessionData :=
  mkSession (platform s) (session_id s) v (local_storage s)
    (session_storage s) (auth_tokens s) (user_agent s) (viewport s)
    (state s) (created_at s) (expires_at s) (last_activity s)
    (rate_limit_reset s) (request_count s) (max_requests_per_hour s)
    (fingerprint s).

Definition set_local_storage (v : StrDict) (s : SessionData) : SessionData :=
  mkSession (platform s) (session_id s) (cookies s) v
    (session_storage s) (auth_tokens s) (user_agent s) (viewport s)
    (state s) (created_at s) (expires_at s) (last_activity s)
    (rate_limit_reset s) (request_count s) (max_requests_per_hour s)
    (fingerprint s).

Definition set_session_storage (v : StrDict) (s : SessionData) : SessionData :=
  mkSession (platform s) (session_id s) (cookies s) (local_storage s)
    v (auth_tokens s) (user_agent s) (viewport s)
    (state s) (created_at s) (expires_at s) (last_activity s)
    (rate_limit_reset s) (request_count s) (max_requests_per_hour s)
    (fingerprint s).

Definition set_auth_tokens (v : StrDict) (s : SessionData) : SessionData :=
  mkSession (platform s) (session_id s) (cookies s) (local_storage s)
    (session_storage s) v (user_agent s) (viewport s)
    (state s) (created_at s) (expires_at s) (last_activity s)
    (rate_limit_reset s) (request_count s) (max_requests_per_hour s)
    (fingerprint s).

Definition set_last_activity (v : Time.t) (s : SessionData) : SessionData :=
  mkSession (platform s) (session_id s) (cookies s) (local_storage s)
    (session_storage s) (auth_tokens s) (user_agent s) (viewport s)
    (state s) (created_at s) (expires_at s) v
    (rate_limit_reset s) (request_count s) (max_requests_per_hour s)
    (fingerprint s).

Definition set_rate_limit_reset (v : option Time.t) (s : SessionData)
  : SessionData :=
  mkSession (platform s) (session_id s) (cookies s) (local_storage s)
    (session_storage s) (auth_tokens s) (user_agent s) (viewport s)
    (state s) (created_at s) (expires_at s) (last_activity s)
    v (request_count s) (max_requests_per_hour s)
    (fingerprint s).

Definition set_request_count (v : Z) (s : SessionData) : SessionData :=
  mkSession (platform s) (session_id s) (cookies s) (local_storage s)
    (session_storage s) (auth_tokens s) (user_agent s) (viewport s)
    (state s) (created_at s) (expires_at s) (last_activity s)
    (rate_limit_reset s) v (max_requests_per_hour s)
    (fingerprint s).

(** ** Pickled blobs

    [_persist_session] pickles [asdict(session)], a dictionary from
    field names to values; [_restore_session] unpickles a dictionary and
    calls [SessionData] with its entries as keyword arguments.

    A dictionary is kept as its entries at the sixteen field names, an
    absent key being [None], and the list of its other keys.  The
    entries have the types the dataclass declares: the constructor call
    checks no types, and a dictionary with a value of another type at a
    field name is not represented (nor is, in memory, a session with such
    a field). *)
Record PyDict := mkDict {
  d_platform : option string;
  d_session_id : option string;
  d_cookies : option (list Cookie);
  d_local_storage : option StrDict;
  d_session_storage : option StrDict;
  d_auth_tokens : option StrDict;
  d_user_agent : option string;
  d_viewport : option (gmap string Z);
  d_state : option SessionState;
  d_created_at : option Time.t;
  d_expires_at : option Time.t;
  d_last_activity : option Time.t;
  d_rate_limit_reset : option (option Time.t);
  d_request_count : option Z;
  d_max_requests_per_hour : option Z;
  d_fingerprint : option string;
  d_other : list string
}.

(** what a file of the storage directory holds: a pickled dictionary, or
    anything on which opening, reading or unpickling raises, or that
    unpickles to something that is not a dictionary with string keys *)
Inductive Blob :=
| Pickled (d : PyDict)
| Corrupt.

Definition asdict (s : SessionData) : PyDict :=
  mkDict (Some (platform s)) (Some (session_id s)) (Some (cookies s))
    (Some (local_storage s)) (Some (session_storage s))
    (Some (auth_tokens s)) (Some (user_agent s)) (Some (viewport s))
    (Some (state s)) (Some (created_at s)) (Some (expires_at s))
    (Some (last_activity s)) (Some (rate_limit_reset s))
    (Some (request_count s)) (Some (max_requests_per_hour s))
    (Some (fingerprint s)) [].

(** The constructor call of [_restore_session], with the entries of
    the dictionary as keyword arguments: no field has a default, so every
    field must be given, and no other keyword is accepted; the call raises
    a [TypeError] otherwise ([None] here). *)
Definition SessionData_of_dict (d : PyDict) : option SessionData :=
  match d_other d with
  | [] =>
      p ← d_platform d;
      sid ← d_session_id d;
      ck ← d_cookies d;
      ls ← d_local_storage d;
      ss ← d_session_storage d;
      at_ ← d_auth_tokens d;
      ua ← d_user_agent d;
      vp ← d_viewport d;
      st ← d_state d;
      ca ← d_created_at d;
      ea ← d_expires_at d;
      la ← d_last_activity d;
      rl ← d_rate_limit_reset d;
      rc ← d_request_count d;
      mx ← d_max_requests_per_hour d;
      fp ← d_fingerprint d;
      Some (mkSession p sid ck ls ss at_ ua vp st ca ea la rl rc mx fp)
  | _ :: _ => None
  end.

(** ** Platform tables *)

(** an entry of [self.platform_configs] *)
Record PlatformConfig := mkConfig {
  requires_auth : bool;
  cfg_max_requests_per_hour : Z;
  session_lifetime_hours : Z;
  rate_limit_detection : list string;
  auth_indicators : list string;
  session_indicators : list string
}.

Definition platform_configs : gmap string PlatformConfig :=
  list_to_map
    [ ("chatgpt",
        mkConfig true 50 24
          ["You've reached your limit"; "Too many requests";
           "Rate limit exceeded"]
          ["button[data-testid='login-button']"; "a[href*='login']"]
          ["button[data-testid='send-button']";
           "textarea[placeholder*='Message']"]);
      ("searchgpt",
        mkConfig true 30 12
          ["Search limit reached"; "Please wait before searching";
           "Too many searches"]
          ["button[data-testid='login']"]
          ["input[placeholder*='Search']"]);
      ("gemini",
        mkConfig false 100 8
          ["Daily limit exceeded"; "Too many requests"]
          ["button[data-testid='sign-in']"]
          ["rich-textarea div[contenteditable='true']"]);
      ("perplexity",
        mkConfig false 25 6
          ["You've reached the limit"; "Please wait"; "Rate limited"]
          ["button[data-testid='login']"]
          ["textarea[placeholder*='Ask anything']"]) ].

(** the [platform_urls] table of [_initialize_session] *)
Definition platform_urls : gmap string string :=
  list_to_map
    [ ("chatgpt", "https://chatgpt.com");
      ("searchgpt", "https://chatgpt.com/?model=search");
      ("gemini", "https://gemini.google.com");
      ("perplexity", "https://www.perplexity.ai") ].

(** ** The remote action gateway *)

(** The prompts are f-strings; a prompt is kept as its kind and the
    values interpolated into it. *)
Inductive Prompt :=
| InitPrompt (platform url : string) (width height : Z)
    (user_agent : string) (auth_ind session_ind : list string)
| ConnectivityPrompt (platform : string) (session_ind : list string)
| AuthPrompt (platform : string).

(** the ["extracted_data"] entry of a result *)
Record ExtractedData := mkExtracted {
  ed_auth_tokens : option StrDict;
  ed_local_storage : option StrDict;
  ed_session_storage : option StrDict
}.

(** The dictionary an action returns; an absent key is [None]. *)
Record ActionResult := mkResult {
  status : option string;
  res_session_cookies : option (list Cookie);
  res_extracted_data : option ExtractedData;
  res_auth_tokens : option StrDict;
  res_cookies : option (list Cookie);
  res_errors : option (list string)
}.

Inductive Outcome :=
| Returns (r : ActionResult)
| Raises (msg : string).

(** the body of [_execute_computer_action] as the repository has it: a
    placeholder that reports success whatever the prompt *)
Definition placeholder_result : ActionResult :=
  mkResult (Some "success") (Some []) (Some (mkExtracted None None None))
    None None (Some []).

Definition is_success (r : ActionResult) : bool :=
  bool_decide (status r = Some "success").

(** ** Exceptions *)
Inductive Exn :=
| UnknownPlatform (platform : string)      (* ValueError *)
| KeyError (key : string)
| GatewayFault (msg : string)              (* raised by the action *)
| InitResultFailure (errors : list string) (* "Session initialization failed: .." *)
| InitFailed (platform : string) (cause : Exn)
| AuthFailed (platform : string) (cause : Exn)
| ListingFault (msg : string)              (* raised by [Path.glob] *)
| Dangling (l : nat).                      (* a location that holds no object *)

Inductive Result (A : Type) :=
| Ok (a : A)
| Raise (e : Exn).
Arguments Ok {A} a.
Arguments Raise {A} e.

(** ** The environment and the state of a manager *)

(** a file of [storage_path] *)
Record File := mkFile {
  fname : string;
  mtime : Time.t;
  content : Blob
}.

(** what [list(self.storage_path.glob(pattern))] gives: the files that
    match, or the exception that [Path.glob] raises *)
Inductive Listing :=
| Lists (files : list File)
| Fails (msg : string).

(** what a pattern does: it selects file names, or [Path.glob] raises *)
Inductive Pattern :=
| Selects (m : string -> bool)
| Unsupported (msg : string).

Record Env := mkEnv {
  (** successive readings of the system clock *)
  clock : nat -> Time.t;
  (** what the [n]-th remote action does, given its prompt *)
  gateway : nat -> Prompt -> Outcome;
  (** [hashlib.md5(s.encode()).hexdigest()[:8]] *)
  md5_hex8 : string -> string;
  (** the sixteen hex digits [_generate_fingerprint] takes from the
      SHA-256 of the platform, the time and [id(self)] *)
  fingerprint_hash : string -> Time.t -> string;
  (** how [pathlib] reads [f"{platform}_*.pkl"] for a platform name that
      is a pattern of its own: which file names of the directory the
      pattern selects, or that [Path.glob] raises on it (as it does for a
      name that starts with a slash), is not decided here; files outside
      the storage directory are not represented *)
  pattern : string -> Pattern
}.

Record World := mkWorld {
  heap : list SessionData;            (* the session objects *)
  active_sessions : gmap string nat;  (* platform -> object *)
  session_locks : gset string;
  storage : list File;                (* in directory order *)
  ticks : nat;                        (* clock readings taken *)
  calls : nat;                        (* remote actions performed *)
  actions : list Prompt               (* their prompts, in order *)
}.

Definition init_world : World := mkWorld [] ∅ ∅ [] 0 0 [].

Definition with_heap (h : list SessionData) (w : World) : World :=
  mkWorld h (active_sessions w) (session_locks w) (storage w) (ticks w) (calls w)
    (actions w).
Definition with_active (a : gmap string nat) (w : World) : World :=
  mkWorld (heap w) a (session_locks w) (storage w) (ticks w) (calls w)
    (actions w).
Definition with_locks (k : gset string) (w : World) : World :=
  mkWorld (heap w) (active_sessions w) k (storage w) (ticks w) (calls w)
    (actions w).
Definition with_storage (f : list File) (w : World) : World :=
  mkWorld (heap w) (active_sessions w) (session_locks w) f (ticks w) (calls w)
    (actions w).
Definition with_ticks (n : nat) (w : World) : World :=
  mkWorld (heap w) (active_sessions w) (session_locks w) (storage w) n (calls w)
    (actions w).
(** one more remote action, with this prompt *)
Definition performed (prompt : Prompt) (w : World) : World :=
  mkWorld (heap w) (active_sessions w) (session_locks w) (storage w) (ticks w)
    (S (calls w)) (actions w ++ [prompt]).

(** ** A state and exception monad *)
Definition M (A : Type) : Type := World -> Result A * World.

Definition ret {A} (a : A) : M A := fun w => (Ok a, w).
Definition raise {A} (e : Exn) : M A := fun w => (Raise e, w).
Definition bind {A B} (m : M A) (k : A -> M B) : M B :=
  fun w => match m w with
           | (Ok a, w') => k a w'
           | (Raise e, w') => (Raise e, w')
           end.
(** [try: m  except Exception as e: h e] *)
Definition try_except {A} (m : M A) (h : Exn -> M A) : M A :=
  fun w => match m w with
           | (Ok a, w') => (Ok a, w')
           | (Raise e, w') => h e w'
           end.
Definition get : M World := fun w => (Ok w, w).
Definition modify (f : World -> World) : M unit := fun w => (Ok tt, f w).

(** the monad carries stdpp's [x ← m; k] notation *)
#[global] Instance M_ret : MRet M := @ret.
#[global] Instance M_bind : MBind M := fun A B k m => bind m k.

(** ** Strings and files *)

(** [str(n)] for an integer *)
Definition str_of_Z (n : Z) : string := NilZero.string_of_int (Z.to_int n).

(** [needle in hay] *)
Definition is_substring (needle hay : string) : bool :=
  match String.index 0 needle hay with Some _ => true | None => false end.

Definition ends_with (suffix s : string) : bool :=
  let n := String.length s in
  let k := String.length suffix in
  (k <=? n)%nat && String.eqb (String.substring (n - k) k s) suffix.

(** the characters that make [pathlib] read a name as a pattern, or as a
    path of several components *)
Definition pattern_char (c : ascii) : bool :=
  existsb (Ascii.eqb c) ["*"; "?"; "["; "/"]%char.

Fixpoint plain_name (s : string) : bool :=
  match s with
  | EmptyString => true
  | String c s' => negb (pattern_char c) && plain_name s'
  end.

(** [name] matches the pattern [f"{platform}_*.pkl"], for a plain
    platform name: every character of the pattern but the star stands for
    itself *)
Definition glob_platform (platform name : string) : bool :=
  String.prefix (platform +:+ "_") name
  && ends_with ".pkl" name
  && (String.length (platform +:+ "_") + 4 <=? String.length name)%nat.

(** [name] matches ["*.pkl"] *)
Definition glob_pkl (name : string) : bool := ends_with ".pkl" name.

(** how [Path.glob] reads the pattern of a platform name *)
Definition matcher (E : Env) (platform : string) : Pattern :=
  if plain_name platform then Selects (glob_platform platform)
  else pattern E platform.

(** [list(self.storage_path.glob(f"{platform}_*.pkl"))], [fs] being the
    files of the directory *)
Definition glob (E : Env) (platform : string) (fs : list File) : Listing :=
  match matcher E platform with
  | Selects m => Lists (filter (fun f => Is_true (m (fname f))) fs)
  | Unsupported msg => Fails msg
  end.

(** [max(x :: l, key=key)]: the first element whose key is largest *)
Fixpoint max_by {A} (key : A -> Z) (x : A) (l : list A) : A :=
  match l with
  | [] => x
  | y :: l' => if key x <? key y then max_by key y l' else max_by key x l'
  end.

(** writing a file: an existing file of that name is overwritten where it
    is, a new one is added to the directory *)
Fixpoint write_file (name : string) (t : Time.t) (b : Blob) (fs : list File)
  : list File :=
  match fs with
  | [] => [mkFile name t b]
  | f :: fs' =>
      if String.eqb (fname f) name then mkFile name t b :: fs'
      else f :: write_file name t b fs'
  end.

Definition session_file (s : SessionData) : string :=
  platform s +:+ "_" +:+ session_id s +:+ ".pkl".

(** ** The manager *)

(** what [handle_rate_limit] returns (the message is a rendering of the
    two other fields) *)
Record RateLimitInfo := mkInfo {
  wait_time : Z;
  reset_time : option Time.t
}.

(** an entry of [get_session_stats] *)
Record SessionStats := mkStats {
  stat_state : string;
  stat_created_at : Time.t;
  stat_last_activity : Time.t;
  stat_request_count : Z;
  stat_rate_limit_reset : option Time.t;
  stat_expires_at : Time.t
}.

Definition stats_of (s : SessionData) : SessionStats :=
  mkStats (state_value (state s)) (created_at s) (last_activity s)
    (request_count s) (rate_limit_reset s) (expires_at s).

Section Manager.
Context (E : Env).

(** [datetime.now()] *)
Definition now : M Time.t :=
  fun w => (Ok (clock E (ticks w)), with_ticks (S (ticks w)) w).

(** [int(time.time())]: whole seconds *)
Definition int_time : M Z :=
  fun w => (Ok (Z.quot (clock E (ticks w)) 1000000), with_ticks (S (ticks w)) w).

(** reading a session object *)
Definition deref (l : nat) : M SessionData :=
  fun w => match heap w !! l with
           | Some s => (Ok s, w)
           | None => (Raise (Dangling l), w)
           end.

(** mutating a session object *)
Definition update (l : nat) (f : SessionData -> SessionData) : M unit :=
  fun w => match heap w !! l with
           | Some s => (Ok tt, with_heap (<[l := f s]> (heap w)) w)
           | None => (Raise (Dangling l), w)
           end.

(** a new session object *)
Definition alloc (s : SessionData) : M nat :=
  fun w => (Ok (length (heap w)), with_heap (heap w ++ [s]) w).

(** The repository leaves the remote action as a placeholder; what an
    action does is taken from the environment ([source_env] is the
    placeholder itself). *)
Definition _execute_computer_action (prompt : Prompt) : M ActionResult :=
  fun w => match gateway E (calls w) prompt with
           | Returns r => (Ok r, performed prompt w)
           | Raises msg => (Raise (GatewayFault msg), performed prompt w)
           end.

Definition _generate_session_id (platform : string) : M string :=
  timestamp ← int_time;
  mret (platform +:+ "_" +:+ str_of_Z timestamp +:+ "_" +:+ md5_hex8 E platform).

Definition _generate_user_agent : string :=
  "Mozilla/5.0 (Windows NT 10.0; Win64; x64) AppleWebKit/537.36 (KHTML, like Gecko) Chrome/120.0.0.0 Safari/537.36".

Definition _generate_fingerprint (platform : string) : M string :=
  t ← now;
  mret (fingerprint_hash E platform t).

(** the file gets the time of the write as its modification time *)
Definition _persist_session (l : nat) : M unit :=
  session ← deref l;
  t ← now;
  modify (fun w =>
    with_storage
      (write_file (session_file session) t (Pickled (asdict session)) (storage w))
      w).

Definition _restore_session (platform : string) : M (option nat) :=
  w ← get;
  match glob E platform (storage w) with
  | Fails msg => raise (ListingFault msg)
  | Lists [] => mret None
  | Lists (f :: fs) =>
      let latest_file := max_by mtime f fs in
      match content latest_file with
      | Pickled d =>
          match SessionData_of_dict d with
          | Some s => l ← alloc s; mret (Some l)
          | None => mret None
          end
      | Corrupt => mret None
      end
  end.

Definition _test_session_connectivity (l : nat) : M bool :=
  session ← deref l;
  match platform_configs !! platform session with
  | None => raise (KeyError (platform session))
  | Some cfg =>
      try_except
        (result ← _execute_computer_action
           (ConnectivityPrompt (platform session) (session_indicators cfg));
         mret (is_success result))
        (fun _ => mret false)
  end.

Definition _validate_session (l : nat) : M bool :=
  session ← deref l;
  t ← now;
  if t >? expires_at session then mret false
  else
    cooling ←
      (if decide (state session = RATE_LIMITED) then
         match rate_limit_reset session with
         | Some reset =>
             t' ← now;
             if t' <? reset then mret true
             else update l (fun s => set_request_count 0 (set_state ACTIVE s));;
                  mret false
         | None =>
             update l (fun s => set_request_count 0 (set_state ACTIVE s));;
             mret false
         end
       else mret false);
    if (cooling : bool) then mret false
    else
      session ← deref l;
      if decide (state session = BLOCKED) then mret false
      else _test_session_connectivity l.

Definition _update_session_activity (l : nat) : M unit :=
  t ← now;
  update l (set_last_activity t);;
  update l (fun s => set_request_count (request_count s + 1) s);;
  session ← deref l;
  (if request_count session >=? max_requests_per_hour session then
     update l (set_state RATE_LIMITED);;
     t' ← now;
     update l (set_rate_limit_reset (Some (t' + Time.hours 1)))
   else mret tt);;
  _persist_session l.

Definition _process_session_init_result (l : nat) (result : ActionResult)
  : M unit :=
  if is_success result then
    update l (set_cookies (default [] (res_session_cookies result)));;
    let extracted_data :=
      default (mkExtracted None None None) (res_extracted_data result) in
    update l (set_auth_tokens (default ∅ (ed_auth_tokens extracted_data)));;
    update l (set_local_storage (default ∅ (ed_local_storage extracted_data)));;
    update l (set_session_storage (default ∅ (ed_session_storage extracted_data)))
  else raise (InitResultFailure (default [] (res_errors result))).

Definition _initialize_session (l : nat) : M unit :=
  update l (set_state INITIALIZING);;
  session ← deref l;
  match platform_urls !! platform session with
  | None => raise (UnknownPlatform (platform session))
  | Some url =>
      if String.eqb url "" then raise (UnknownPlatform (platform session))
      else
        match viewport session !! "width", viewport session !! "height",
              platform_configs !! platform session with
        | None, _, _ => raise (KeyError "width")
        | _, None, _ => raise (KeyError "height")
        | _, _, None => raise (KeyError (platform session))
        | Some width, Some height, Some cfg =>
            try_except
              (init_result ← _execute_computer_action
                 (InitPrompt (platform session) url width height
                    (user_agent session) (auth_indicators cfg)
                    (session_indicators cfg));
               _process_session_init_result l init_result;;
               update l (set_state ACTIVE);;
               t ← now;
               update l (set_last_activity t))
              (fun e =>
                 update l (set_state ERROR);;
                 raise (InitFailed (platform session) e))
        end
  end.

Definition _create_new_session (platform : string) : M nat :=
  let config := platform_configs !! platform in
  session_id ← _generate_session_id platform;
  created ← now;
  t ← now;
  last ← now;
  fp ← _generate_fingerprint platform;
  l ← alloc
    (mkSession platform session_id [] ∅ ∅ ∅ _generate_user_agent
       {[ "width" := 1920; "height" := 1080 ]}
       UNINITIALIZED created
       (t + Time.hours (from_option session_lifetime_hours 24 config))
       last None 0
       (from_option cfg_max_requests_per_hour 60 config)
       fp);
  _initialize_session l;;
  mret l.

(** the three attempts of [get_session], each giving the session to
    return if it has one *)
Definition get_session_cached (platform : string) (force_new : bool)
  : M (option nat) :=
  w ← get;
  match active_sessions w !! platform with
  | Some l =>
      if force_new then mret None
      else
        valid ← _validate_session l;
        if (valid : bool) then _update_session_activity l;; mret (Some l)
        else
          modify (fun w => with_active (delete platform (active_sessions w)) w);;
          mret None
  | None => mret None
  end.

Definition get_session_restored (platform : string) (force_new : bool)
  : M (option nat) :=
  if force_new then mret None
  else
    restored_session ← _restore_session platform;
    match restored_session with
    | Some l =>
        valid ← _validate_session l;
        if (valid : bool) then
          modify (fun w => with_active (<[platform := l]> (active_sessions w)) w);;
          mret (Some l)
        else mret None
    | None => mret None
    end.

Definition get_session_created (platform : string) : M nat :=
  new_session ← _create_new_session platform;
  modify (fun w => with_active (<[platform := new_session]> (active_sessions w)) w);;
  _persist_session new_session;;
  mret new_session.

(** the two attempts that look for a usable session *)
Definition get_session_lookup (platform : string) (force_new : bool)
  : M (option nat) :=
  cached ← get_session_cached platform force_new;
  match cached with
  | Some l => mret (Some l)
  | None => get_session_restored platform force_new
  end.

(** The body runs under the platform's lock; calls are taken one at a
    time here, so the lock is only recorded. *)
Definition get_session (platform : string) (force_new : bool) : M nat :=
  modify (fun w => with_locks ({[platform]} ∪ session_locks w) w);;
  found ← get_session_lookup platform force_new;
  match found with
  | Some l => mret l
  | None => get_session_created platform
  end.

Definition rate_limit_wait (platform : string) (detected_message : option string)
  : Z :=
  let msg := default "" detected_message in
  if String.eqb platform "chatgpt" then
    if is_substring "hour" msg then 3600 else 1800
  else if String.eqb platform "searchgpt" then 7200
  else if String.eqb platform "gemini" then
    if is_substring "daily" msg then 86400 else 3600
  else if String.eqb platform "perplexity" then 3600
  else 3600.

Definition handle_rate_limit (l : nat) (detected_message : option string)
  : M RateLimitInfo :=
  update l (set_state RATE_LIMITED);;
  session ← deref l;
  let wait_time := rate_limit_wait (platform session) detected_message in
  t ← now;
  update l (set_rate_limit_reset (Some (t + Time.seconds wait_time)));;
  _persist_session l;;
  session ← deref l;
  mret (mkInfo wait_time (rate_limit_reset session)).

Definition handle_authentication_required (l : nat) : M bool :=
  session ← deref l;
  try_except
    (auth_result ← _execute_computer_action (AuthPrompt (platform session));
     if is_success auth_result then
       update l (fun s =>
         set_auth_tokens (default ∅ (res_auth_tokens auth_result) ∪ auth_tokens s) s);;
       update l (fun s =>
         set_cookies (cookies s ++ default [] (res_cookies auth_result)) s);;
       update l (set_state ACTIVE);;
       _persist_session l;;
       mret true
     else
       update l (set_state ERROR);;
       mret false)
    (fun e =>
       update l (set_state ERROR);;
       raise (AuthFailed (platform session) e)).

(** is the cached object at [l] past its expiry at [current_time]? *)
Definition expired_at (h : list SessionData) (current_time : Time.t) (l : nat)
  : bool :=
  match h !! l with
  | Some s => current_time >? expires_at s
  | None => false
  end.

Definition cleanup_expired_sessions : M unit :=
  current_time ← now;
  modify (fun w =>
    with_active
      (filter (fun kv => ¬ Is_true (expired_at (heap w) current_time kv.2))
         (active_sessions w)) w);;
  let cutoff_time := current_time - Time.days 7 in
  modify (fun w =>
    with_storage
      (filter (fun f => ¬ Is_true (glob_pkl (fname f) && (mtime f <? cutoff_time)))
         (storage w)) w).

Definition get_session_stats : M (gmap string SessionStats) :=
  w ← get;
  mret (omap (fun l => stats_of <$> heap w !! l) (active_sessions w)).
End Manager.

(** ** Sequences of public operations *)
Inductive Op :=
| GetSession (platform : string) (force_new : bool)
| HandleRateLimit (l : nat) (detected_message : option string)
| HandleAuthenticationRequired (l : nat)
| CleanupExpiredSessions
| GetSessionStats.

Definition run_op (E : Env) (o : Op) (w : World) : World :=
  match o with
  | GetSession p f => (get_session E p f w).2
  | HandleRateLimit l m => (handle_rate_limit E l m w).2
  | HandleAuthenticationRequired l => (handle_authentication_required E l w).2
  | CleanupExpiredSessions => (cleanup_expired_sessions E w).2
  | GetSessionStats => (get_session_stats w).2
  end.

(** the world after a sequence of calls, whatever each call returned *)
Definition run_ops (E : Env) (os : list Op) (w : World) : World :=
  foldl (fun w o => run_op E o w) w os.

Definition is_auth_op (o : Op) : bool :=
  match o with HandleAuthenticationRequired _ => true | _ => false end.

(** ** Concrete environments *)

(** a clock that starts at [start] and advances by [step] between two
    readings *)
Definition steady_clock (start step : Z) : nat -> Time.t :=
  fun n => start + step * Z.of_nat n.

(** the first eight hex digits of the MD5 of the four platform names *)
Definition md5_table (s : string) : string :=
  if String.eqb s "chatgpt" then "4f642e38"
  else if String.eqb s "searchgpt" then "f02770aa"
  else if String.eqb s "gemini" then "48bafc50"
  else if String.eqb s "perplexity" then "06eaeb41"
  else "00000000".

(** The sample environments are for plain platform names.  For a name
    that is a pattern of its own their pattern raises when the name starts
    with a slash, as [Path.glob] does on an absolute pattern, and selects
    nothing otherwise. *)
Definition sample_pattern (platform : string) : Pattern :=
  if String.prefix "/" platform
  then Unsupported "Non-relative patterns are unsupported"
  else Selects (fun _ => false).

(** the environment of the repository as it is: every action is the
    placeholder *)
Definition source_env (clk : nat -> Time.t) : Env :=
  mkEnv clk (fun _ _ => Returns placeholder_result) md5_table
    (fun _ _ => "0000000000000000") sample_pattern.

(** ** Specification vocabulary *)

(** the [RATE_LIMITED -> ACTIVE] recovery of [_validate_session] *)
Definition recovered (s : SessionData) : SessionData :=
  set_request_count 0 (set_state ACTIVE s).

(** The validity check turns a session down before the connectivity
    probe: expired at the first clock reading, or blocked, or rate
    limited with a reset time that the second reading has not reached. *)
Definition rejects (E : Env) (w : World) (s : SessionData) : bool :=
  (clock E (ticks w) >? expires_at s)
  || bool_decide (state s = BLOCKED)
  || (bool_decide (state s = RATE_LIMITED)
      && match rate_limit_reset s with
         | Some reset => clock E (S (ticks w)) <? reset
         | None => false
         end).

(** the world in which the probe of a session that was not turned down
    runs *)
Definition before_probe (l : nat) (s : SessionData) (w : World) : World :=
  if decide (state s = RATE_LIMITED) then
    with_heap (<[l := recovered s]> (heap w))
      (with_ticks
         (match rate_limit_reset s with
          | Some _ => S (S (ticks w))
          | None => S (ticks w)
          end) w)
  else with_ticks (S (ticks w)) w.

(** what [_update_session_activity] makes of a session, [t] and [t']
    being the two clock readings it may take *)
Definition bumped (t t' : Time.t) (s : SessionData) : SessionData :=
  let s1 := set_request_count (request_count s + 1) (set_last_activity t s) in
  if request_count s1 >=? max_requests_per_hour s1
  then set_rate_limit_reset (Some (t' + Time.hours 1)) (set_state RATE_LIMITED s1)
  else s1.

(** the object [_create_new_session] builds before initializing it *)
Definition fresh_session (platform sid : string) (created t last : Time.t)
  (fp : string) : SessionData :=
  let config := platform_configs !! platform in
  mkSession platform sid [] ∅ ∅ ∅ _generate_user_agent
    {[ "width" := 1920; "height" := 1080 ]}
    UNINITIALIZED created
    (t + Time.hours (from_option session_lifetime_hours 24 config))
    last None 0
    (from_option cfg_max_requests_per_hour 60 config)
    fp.

(** the session identifier, and the object, that [_create_new_session]
    builds in the world [w]: five clock readings are taken, for the
    identifier, the three timestamps and the fingerprint *)
Definition session_id_of (E : Env) (p : string) (w : World) : string :=
  p +:+ "_" +:+ str_of_Z (Z.quot (clock E (ticks w)) 1000000) +:+ "_"
    +:+ md5_hex8 E p.

Definition new_session_of (E : Env) (p : string) (w : World) : SessionData :=
  fresh_session p (session_id_of E p w)
    (clock E (S (ticks w))) (clock E (S (S (ticks w))))
    (clock E (S (S (S (ticks w)))))
    (fingerprint_hash E p (clock E (S (S (S (S (ticks w))))))).

(** the prompt of the initialization action *)
Definition init_prompt (p url : string) (cfg : PlatformConfig) : Prompt :=
  InitPrompt p url 1920 1080 _generate_user_agent
    (auth_indicators cfg) (session_indicators cfg).

(** a session after a successful, and after a failed, initialization *)
Definition activated (r : ActionResult) (t : Time.t) (s : SessionData)
  : SessionData :=
  let extracted := default (mkExtracted None None None) (res_extracted_data r) in
  set_last_activity t
    (set_state ACTIVE
       (set_session_storage (default ∅ (ed_session_storage extracted))
          (set_local_storage (default ∅ (ed_local_storage extracted))
             (set_auth_tokens (default ∅ (ed_auth_tokens extracted))
                (set_cookies (default [] (res_session_cookies r))
                   (set_state INITIALIZING s)))))).

Definition init_failed (s : SessionData) : SessionData :=
  set_state ERROR (set_state INITIALIZING s).

(** The outcome of [_create_new_session] in closed form: the result and
    the world it leaves. *)
Definition created (E : Env) (p : string) (w : World) : Result nat * World :=
  let s0 := new_session_of E p w in
  let world s n c acts :=
    mkWorld (heap w ++ [s]) (active_sessions w) (session_locks w) (storage w)
      n c acts in
  let n := S (S (S (S (S (ticks w))))) in
  match platform_urls !! p, platform_configs !! p with
  | Some url, Some cfg =>
      let acts := actions w ++ [init_prompt p url cfg] in
      match gateway E (calls w) (init_prompt p url cfg) with
      | Returns r =>
          if is_success r then
            (Ok (length (heap w)),
             world (activated r (clock E n) s0) (S n) (S (calls w)) acts)
          else
            (Raise (InitFailed p (InitResultFailure (default [] (res_errors r)))),
             world (init_failed s0) n (S (calls w)) acts)
      | Raises msg =>
          (Raise (InitFailed p (GatewayFault msg)),
           world (init_failed s0) n (S (calls w)) acts)
      end
  | _, _ =>
      (Raise (UnknownPlatform p),
       world (set_state INITIALIZING s0) n (calls w) (actions w))
  end.

(** a session after [handle_rate_limit] at time [t] *)
Definition rate_limited (t : Time.t) (msg : option string) (s : SessionData)
  : SessionData :=
  set_rate_limit_reset
    (Some (t + Time.seconds (rate_limit_wait (platform s) msg)))
    (set_state RATE_LIMITED s).

(** a session after a successful authentication action *)
Definition authenticated (r : ActionResult) (s : SessionData) : SessionData :=
  set_state ACTIVE
    (set_cookies (cookies s ++ default [] (res_cookies r))
       (set_auth_tokens (default ∅ (res_auth_tokens r) ∪ auth_tokens s) s)).

(** The outcome of [handle_authentication_required] on the object [s] at
    [l], in closed form. *)
Definition auth_handled (E : Env) (l : nat) (s : SessionData) (w : World)
  : Result bool * World :=
  let world h st n :=
    mkWorld h (active_sessions w) (session_locks w) st n (S (calls w))
      (actions w ++ [AuthPrompt (platform s)]) in
  match gateway E (calls w) (AuthPrompt (platform s)) with
  | Returns r =>
      if is_success r then
        let s' := authenticated r s in
        (Ok true,
         world (<[l := s']> (heap w))
           (write_file (session_file s') (clock E (ticks w)) (Pickled (asdict s'))
              (storage w))
           (S (ticks w)))
      else
        (Ok false, world (<[l := set_state ERROR s]> (heap w)) (storage w) (ticks w))
  | Raises msg =>
      (Raise (AuthFailed (platform s) (GatewayFault msg)),
       world (<[l := set_state ERROR s]> (heap w)) (storage w) (ticks w))
  end.

(** [P] holds of every session object and of every session the storage
    can give back *)
Definition World_all (P : SessionData -> Prop) (w : World) : Prop :=
  (forall l s, heap w !! l = Some s -> P s) /\
  (forall f d s, f ∈ storage w -> content f = Pickled d ->
     SessionData_of_dict d = Some s -> P s).

(** [P] survives the lifecycle transitions of every operation but the
    authentication handler *)
Record Stable (P : SessionData -> Prop) : Prop := mkStable {
  st_fresh : forall platform sid created t last fp,
    P (fresh_session platform sid created t last fp);
  st_init : forall s v,
    state s = UNINITIALIZED \/ state s = INITIALIZING ->
    v = INITIALIZING \/ v = ACTIVE \/ v = ERROR ->
    P s -> P (set_state v s);
  st_cookies : forall s v, P s -> P (set_cookies v s);
  st_auth_tokens : forall s v, P s -> P (set_auth_tokens v s);
  st_local_storage : forall s v, P s -> P (set_local_storage v s);
  st_session_storage : forall s v, P s -> P (set_session_storage v s);
  st_last_activity : forall s v, P s -> P (set_last_activity v s);
  st_recover : forall s, state s = RATE_LIMITED -> P s -> P (recovered s);
  st_bump : forall s t t',
    state s <> RATE_LIMITED -> state s <> BLOCKED -> P s -> P (bumped t t' s);
  st_rate_limit : forall s t,
    P s -> P (set_rate_limit_reset (Some t) (set_state RATE_LIMITED s))
}.

(** [P] survives the two outcomes of [handle_authentication_required] *)
Record AuthStable (P : SessionData -> Prop) : Prop := mkAuthStable {
  st_auth_ok : forall s, P s -> P (set_state ACTIVE s);
  st_auth_error : forall s, P s -> P (set_state ERROR s)
}.

(** a reset time is recorded on every rate-limited session *)
Definition reset_recorded (s : SessionData) : Prop :=
  state s = RATE_LIMITED -> rate_limit_reset s <> None.


(** weakest preconditions for the monad *)
Definition wp {A} (m : M A) (Q : Result A -> World -> Prop) (w : World) : Prop :=
  Q (m w).1 (m w).2.

(** the session [_restore_session] would load for a platform *)
Definition restorable (E : Env) (p : string) (w : World) : option SessionData :=
  match glob E p (storage w) with
  | Lists (f :: fs) =>
      match content (max_by mtime f fs) with
      | Pickled d => SessionData_of_dict d
      | Corrupt => None
      end
  | _ => None
  end.


(** the session stored under a file name *)
Definition stored_session (name : string) (fs : list File) : option SessionData :=
  f ← find (fun f => String.eqb (fname f) name) fs;
  match content f with
  | Pickled d => SessionData_of_dict d
  | Corrupt => None
  end.

(** what the connectivity probe answers when the action has this outcome *)
Definition probe_answer (o : Outcome) : bool :=
  match o with
  | Returns r => is_success r
  | Raises _ => false
  end.

(** the invariant of the specification: a reset time is recorded exactly
    on the rate-limited sessions *)
Definition reset_iff_limited (s : SessionData) : Prop :=
  rate_limit_reset s <> None <-> state s = RATE_LIMITED.

(** a result that reports a failure *)
Definition failure_result : ActionResult :=
  mkResult (Some "failure") None None None None (Some ["remote action failed"]).


(** an environment in which the initialization action reports a failure *)
Definition init_failing_env (clk : nat -> Time.t) : Env :=
  mkEnv clk
    (fun _ prompt =>
       match prompt with
       | InitPrompt _ _ _ _ _ _ _ => Returns failure_result
       | _ => Returns placeholder_result
       end)
    md5_table (fun _ _ => "0000000000000000") sample_pattern.

(** one microsecond between two clock readings, from the epoch second
    1000 on *)
Definition fast_clock : nat -> Time.t := steady_clock 1000000000 1.

(** the world after a first [get_session("chatgpt")] *)
Definition chatgpt_world (E : Env) : World :=
  (get_session E "chatgpt" false init_world).2.

(** the object at a location (a blank session if there is none) *)
Definition session_at (l : nat) (w : World) : SessionData :=
  default (fresh_session "" "" 0 0 0 "") (heap w !! l).

(** [s] is held for the platform [p]: it is the cached session object, or
    the session the storage would give back *)
Definition held (E : Env) (p : string) (w : World) (s : SessionData) : Prop :=
  (exists l, active_sessions w !! p = Some l /\ heap w !! l = Some s) \/
  restorable E p w = Some s.

(** a clock whose first seven readings are a microsecond apart and whose
    later readings are more than eleven days later *)
Definition jumping_clock : nat -> Time.t :=
  fun n => if (n <? 7)%nat then Z.of_nat n else 1000000000000 + Z.of_nat n.

(** a thousand seconds between two clock readings *)
Definition slow_clock : nat -> Time.t := steady_clock 0 (Time.seconds 1000).

(** a session is created, reported as rate limited, and asked for again
    once the reset time has passed *)
Definition limit_then_recover : list Op :=
  [ GetSession "chatgpt" false;
    HandleRateLimit 0 None;
    GetSession "chatgpt" false ].



(** two sessions for one platform, created one after the other *)
Definition first_forced (E : Env) : Result nat * World :=
  get_session E "chatgpt" true init_world.
Definition second_forced (E : Env) : Result nat * World :=
  get_session E "chatgpt" true (first_forced E).2.

(** ** Further specification vocabulary *)

(** the two states that no method of the manager assigns *)
Definition never_assigned (s : SessionData) : Prop :=
  state s <> BLOCKED /\ state s <> EXPIRED.

(** what a session keeps from its creation: the quota of its platform
    (60 when the platform has no configuration), the one user agent and
    viewport; its counter is never negative *)
Definition as_configured (s : SessionData) : Prop :=
  max_requests_per_hour s
    = from_option cfg_max_requests_per_hour 60 (platform_configs !! platform s) /\
  user_agent s = _generate_user_agent /\
  viewport s = {[ "width" := 1920; "height" := 1080 ]} /\
  0 <= request_count s.

(** the waiting times of [handle_rate_limit], in seconds *)
Definition wait_times : list Z := [1800; 3600; 7200; 86400].

(** a session as the validity check leaves it when it does not turn it
    down: recovered if it was rate limited *)
Definition refreshed (s : SessionData) : SessionData :=
  if decide (state s = RATE_LIMITED) then recovered s else s.

(** the prompt of the connectivity probe of a session *)
Definition probe_prompt (s : SessionData) (cfg : PlatformConfig) : Prompt :=
  ConnectivityPrompt (platform s) (session_indicators cfg).

(** an environment in which the authentication action raises *)
Definition auth_raising_env (clk : nat -> Time.t) : Env :=
  mkEnv clk
    (fun _ prompt =>
       match prompt with
       | AuthPrompt _ => Raises "connection reset"
       | _ => Returns placeholder_result
       end)
    md5_table (fun _ _ => "0000000000000000") sample_pattern.

(** a storage directory, in an otherwise initial world *)
Definition stored_world (fs : list File) : World := with_storage fs init_world.

(** the directory after a first chatgpt session, with a later file of the
    platform that cannot be unpickled *)
Definition corrupt_latest : list File :=
  storage (chatgpt_world (source_env fast_clock))
  ++ [mkFile "chatgpt_chatgpt_2000_4f642e38.pkl" 2000000000 Corrupt].

(** the world after a first chatgpt session has been reported as rate
    limited *)
Definition limited_world (E : Env) : World :=
  run_ops E [GetSession "chatgpt" false; HandleRateLimit 0 None] init_world.

(** an environment in which only the first remote action succeeds at
    initializing a session *)
Definition one_init_env (clk : nat -> Time.t) : Env :=
  mkEnv clk
    (fun n prompt =>
       match prompt, n with
       | InitPrompt _ _ _ _ _ _ _, S _ => Returns failure_result
       | _, _ => Returns placeholder_result
       end)
    md5_table (fun _ _ => "0000000000000000") sample_pattern.

(** ** Transitions between worlds *)

(** what a session object keeps from its creation on *)
Definition same_identity (s s' : SessionData) : Prop :=
  platform s' = platform s /\ session_id s' = session_id s /\
  created_at s' = created_at s /\ expires_at s' = expires_at s /\
  max_requests_per_hour s' = max_requests_per_hour s /\
  user_agent s' = user_agent s /\ viewport s' = viewport s /\
  fingerprint s' = fingerprint s.

(** from [w] to [w']: every session object is still there, with the
    identity it had, and every lock is still there *)
Definition evolves (w w' : World) : Prop :=
  (forall l s, heap w !! l = Some s ->
     exists s', heap w' !! l = Some s' /\ same_identity s s') /\
  session_locks w ⊆ session_locks w'.

(** as [evolves], with the cache and the locks as they were *)
Definition quiet (w w' : World) : Prop :=
  evolves w w' /\
  active_sessions w' = active_sessions w /\
  session_locks w' = session_locks w.

(** a relation between the world before and the world after that the
    elementary steps of the manager establish *)
Record Transition (R : World -> World -> Prop) : Prop := mkTransition {
  tr_refl : forall w, R w w;
  tr_trans : forall w1 w2 w3, R w1 w2 -> R w2 w3 -> R w1 w3;
  tr_ticks : forall w n, R w (with_ticks n w);
  tr_performed : forall w prompt, R w (performed prompt w);
  tr_storage : forall w fs, R w (with_storage fs w);
  tr_update : forall w l s s',
    heap w !! l = Some s -> same_identity s s' ->
    R w (with_heap (<[l := s']> (heap w)) w);
  tr_alloc : forall w s, R w (with_heap (heap w ++ [s]) w)
}.

(** a computation all of whose runs are in [R] *)
Definition Pres (R : World -> World -> Prop) {A} (m : M A) : Prop :=
  forall w, R w (m w).2.

(** every cache entry points to a session object *)
Definition cache_live (w : World) : Prop :=
  forall p l, active_sessions w !! p = Some l -> is_Some (heap w !! l).

(** ** Further sample environments *)





(** * Proofs *)

Arguments asdict : simpl never.
Arguments session_file : simpl never.
Arguments platform_configs : simpl never.
Arguments platform_urls : simpl never.
Arguments SessionData_of_dict : simpl never.
Arguments Time.hours : simpl never.
Arguments Time.seconds : simpl never.
Arguments Time.days : simpl never.

Ltac munfold :=
  unfold mbind, mret, M_bind, M_ret, bind, ret, raise, modify, get,
    try_except, now, int_time, alloc, deref, update in *.

Section WP.
Context {A B : Type}.
Implicit Types (Q : Result A -> World -> Prop).

Lemma wp_ret (a : A) Q w : Q (Ok a) w -> wp (mret a) Q w.
Proof. done. Qed.

Lemma wp_raise e Q w : Q (Raise e) w -> wp (raise e) Q w.
Proof. done. Qed.

Lemma wp_bind (m : M A) (k : A -> M B) (Q : Result B -> World -> Prop) w :
  wp m (fun r w' => match r with
                    | Ok a => wp (k a) Q w'
                    | Raise e => Q (Raise e) w'
                    end) w ->
  wp (m ≫= k) Q w.
Proof.
  unfold wp, mbind, M_bind, bind. destruct (m w) as [[a|e] w']; done.
Qed.

Lemma wp_try (m : M A) (h : Exn -> M A) Q w :
  wp m (fun r w' => match r with
                    | Ok a => Q (Ok a) w'
                    | Raise e => wp (h e) Q w'
                    end) w ->
  wp (try_except m h) Q w.
Proof.
  unfold wp, try_except. destruct (m w) as [[a|e] w']; done.
Qed.

Lemma wp_mono (m : M A) Q Q' w :
  (forall r w', Q r w' -> Q' r w') -> wp m Q w -> wp m Q' w.
Proof. unfold wp. auto. Qed.
End WP.

Lemma wp_modify f (Q : Result unit -> World -> Prop) w :
  Q (Ok tt) (f w) -> wp (modify f) Q w.
Proof. done. Qed.

Lemma wp_get (Q : Result World -> World -> Prop) w : Q (Ok w) w -> wp get Q w.
Proof. done. Qed.

Lemma wp_now E (Q : Result Time.t -> World -> Prop) w :
  Q (Ok (clock E (ticks w))) (with_ticks (S (ticks w)) w) -> wp (now E) Q w.
Proof. done. Qed.

Lemma wp_int_time E (Q : Result Z -> World -> Prop) w :
  Q (Ok (Z.quot (clock E (ticks w)) 1000000)) (with_ticks (S (ticks w)) w) ->
  wp (int_time E) Q w.
Proof. done. Qed.

Lemma wp_deref l (Q : Result SessionData -> World -> Prop) w :
  match heap w !! l with
  | Some s => Q (Ok s) w
  | None => Q (Raise (Dangling l)) w
  end -> wp (deref l) Q w.
Proof. unfold wp, deref. by destruct (heap w !! l). Qed.

Lemma wp_update l f (Q : Result unit -> World -> Prop) w :
  match heap w !! l with
  | Some s => Q (Ok tt) (with_heap (<[l := f s]> (heap w)) w)
  | None => Q (Raise (Dangling l)) w
  end -> wp (update l f) Q w.
Proof. unfold wp, update. by destruct (heap w !! l). Qed.

Lemma wp_alloc s (Q : Result nat -> World -> Prop) w :
  Q (Ok (length (heap w))) (with_heap (heap w ++ [s]) w) -> wp (alloc s) Q w.
Proof. done. Qed.

Lemma wp_action E p (Q : Result ActionResult -> World -> Prop) w :
  (forall r, Q r (performed p w)) ->
  wp (_execute_computer_action E p) Q w.
Proof.
  intros H. unfold wp, _execute_computer_action.
  destruct (gateway E (calls w) p); apply H.
Qed.

(** heap-only facts about World_all *)
Lemma World_all_same_data P w w' :
  heap w' = heap w -> storage w' = storage w -> World_all P w -> World_all P w'.
Proof. intros Hh Hs [H1 H2]. split; rewrite ?Hh, ?Hs; done. Qed.

Lemma World_all_update P w l s' :
  is_Some (heap w !! l) -> P s' -> World_all P w ->
  World_all P (with_heap (<[l := s']> (heap w)) w).
Proof.
  intros [s Hl] Hf [H1 H2]. split; [|done]. cbn. intros l' s2 Hl'.
  destruct (decide (l = l')) as [->|Hne].
  - rewrite list_lookup_insert_eq in Hl' by (by eapply lookup_lt_Some). congruence.
  - rewrite list_lookup_insert_ne in Hl' by done. eauto.
Qed.

Lemma World_all_alloc P w s :
  P s -> World_all P w -> World_all P (with_heap (heap w ++ [s]) w).
Proof.
  intros Hs [H1 H2]. split; [|done]. cbn. intros l' s' Hl'.
  apply lookup_app_Some in Hl' as [Hl'|[_ Hl']]; [eauto|].
  apply list_lookup_singleton_Some in Hl' as [_ <-]. done.
Qed.

Lemma elem_of_write_file name t b fs f :
  f ∈ write_file name t b fs -> f ∈ fs \/ f = mkFile name t b.
Proof.
  induction fs as [|g fs IH]; cbn.
  - intros ->%list_elem_of_singleton. by right.
  - destruct (String.eqb (fname g) name).
    + intros [->|?]%elem_of_cons; [by right|left; by right].
    + intros [->|?]%elem_of_cons; [left; by left|].
      destruct IH as [?|?]; [done|left; by right|by right].
Qed.


Arguments write_file : simpl never.

Lemma asdict_roundtrip s : SessionData_of_dict (asdict s) = Some s.
Proof. by destruct s. Qed.

Lemma max_by_elem {A} (key : A -> Z) x l : max_by key x l ∈ x :: l.
Proof.
  revert x. induction l as [|y l IH]; intros x; cbn; [by left|].
  destruct (key x <? key y).
  - right. apply IH.
  - specialize (IH x). apply elem_of_cons in IH as [->|?]; [by left|by do 2 right].
Qed.

Lemma restore_all P E p w :
  World_all P w ->
  wp (_restore_session E p)
     (fun r w' => World_all P w' /\ storage w' = storage w /\
        active_sessions w' = active_sessions w /\
        forall l, r = Ok (Some l) -> is_Some (heap w' !! l)) w.
Proof.
  intros HW. unfold _restore_session. apply wp_bind, wp_get. unfold glob.
  destruct (matcher E p) as [m|msg]; [|apply wp_raise; split_and!; done].
  destruct (filter _ (storage w)) as [|f fs] eqn:Hfl.
  { apply wp_ret. split_and!; try done. }
  assert (Hin : max_by mtime f fs ∈ storage w).
  { pose proof (max_by_elem mtime f fs) as Hm. rewrite <- Hfl in Hm.
    by apply list_elem_of_filter in Hm as [_ ?]. }
  destruct (content (max_by mtime f fs)) as [d|] eqn:Hc.
  2:{ apply wp_ret. split_and!; try done. }
  destruct (SessionData_of_dict d) as [s|] eqn:Hd.
  2:{ apply wp_ret. split_and!; try done. }
  apply wp_bind, wp_alloc, wp_ret.
  split_and!; try done.
  - apply World_all_alloc; [|done]. destruct HW as [_ H2]. eauto.
  - intros l [= <-]. cbn. rewrite lookup_app_r by done.
    rewrite Nat.sub_diag. eauto.
Qed.

Lemma probe_same E l w :
  wp (_test_session_connectivity E l)
     (fun _ w' => heap w' = heap w /\ storage w' = storage w /\
                  active_sessions w' = active_sessions w) w.
Proof.
  unfold _test_session_connectivity. apply wp_bind, wp_deref.
  destruct (heap w !! l) as [s|]; [|done].
  destruct (platform_configs !! platform s); [|done].
  apply wp_try, wp_bind, wp_action. intros [r|e]; done.
Qed.

Lemma validate_all P E l w :
  Stable P -> World_all P w ->
  wp (_validate_session E l)
     (fun r w' => World_all P w' /\ storage w' = storage w /\
        active_sessions w' = active_sessions w /\
        length (heap w') = length (heap w) /\
        (r = Ok true -> exists s, heap w' !! l = Some s /\
            state s <> RATE_LIMITED /\ state s <> BLOCKED)) w.
Proof.
  intros HP HW. unfold _validate_session.
  apply wp_bind, wp_deref. destruct (heap w !! l) as [s|] eqn:Hl.
  2:{ split_and!; done. }
  apply wp_bind, wp_now.
  destruct (_ >? _). { apply wp_ret. split_and!; done. }
  apply wp_bind.
  set (Q := fun (r : Result bool) (w' : World) =>
     match r with
     | Ok true => World_all P w' /\ storage w' = storage w /\
                  active_sessions w' = active_sessions w /\ length (heap w') = length (heap w)
     | Ok false => World_all P w' /\ storage w' = storage w /\
                  active_sessions w' = active_sessions w /\ length (heap w') = length (heap w) /\
                  exists s', heap w' !! l = Some s' /\ state s' <> RATE_LIMITED
     | Raise _ => False
     end).
  assert (Hrec : forall w1, state s = RATE_LIMITED ->
     heap w1 = heap w -> storage w1 = storage w ->
     active_sessions w1 = active_sessions w ->
     wp (update l (fun s => set_request_count 0 (set_state ACTIVE s));; mret false) Q w1).
  { intros w1 Hrl Hh Hs Ha. apply wp_bind, wp_update. rewrite Hh, Hl.
    apply wp_ret. unfold Q. split_and!; try done.
    - rewrite <- Hh. apply World_all_update; [by rewrite Hh| |by apply (World_all_same_data P w)].
      destruct HW as [H1 _]. apply (st_recover P HP); eauto.
    - cbn. by rewrite length_insert.
    - cbn. eexists. split; [apply list_lookup_insert_eq; by eapply lookup_lt_Some|done]. }
  apply (wp_mono _ Q).
  2:{ destruct (decide (state s = RATE_LIMITED)) as [Hrl|Hrl].
      - destruct (rate_limit_reset s).
        + apply wp_bind, wp_now. destruct (_ <? _).
          * apply wp_ret. unfold Q. split_and!; try done.
          * apply Hrec; done.
        + apply Hrec; done.
      - apply wp_ret. unfold Q; cbn. split; [by apply (World_all_same_data P w)|].
        split_and!; try done. eauto. }
  intros [[|]|e] w1; unfold Q; [| |done].
  { intros (?&?&?&?). apply wp_ret. split_and!; done. }
  intros (HW1&Hs1&Ha1&Hlen1&s'&Hl'&Hst).
  apply wp_bind, wp_deref. rewrite Hl'.
  destruct (decide (state s' = BLOCKED)). { apply wp_ret. split_and!; done. }
  eapply wp_mono; [|apply probe_same].
  cbn. intros r w2 (Hh2&Hs2&Ha2). split; [apply (World_all_same_data P w1); done|].
  split; [congruence|]. split; [congruence|]. split; [congruence|].
  intros _. rewrite Hh2. eauto.
Qed.

Ltac heap_simpl :=
  repeat first
    [ rewrite list_insert_insert_eq
    | rewrite list_lookup_insert_eq by (rewrite ?length_insert; eapply lookup_lt_Some; eassumption) ].

Ltac mrun := repeat first [progress cbn | progress heap_simpl].

Lemma update_activity_run E l s w :
  heap w !! l = Some s ->
  let t := clock E (ticks w) in
  let t' := clock E (S (ticks w)) in
  let s' := bumped t t' s in
  let n := if request_count s + 1 >=? max_requests_per_hour s
           then S (S (ticks w)) else S (ticks w) in
  _update_session_activity E l w =
    (Ok tt,
     mkWorld (<[l := s']> (heap w)) (active_sessions w) (session_locks w)
       (write_file (session_file s') (clock E n) (Pickled (asdict s')) (storage w))
       (S n) (calls w) (actions w)).
Proof.
  intros Hl t t' s' n. unfold _update_session_activity, _persist_session.
  munfold. cbn. rewrite Hl. mrun.
  subst s' n. unfold bumped. cbn.
  destruct (request_count s + 1 >=? max_requests_per_hour s) eqn:Hge; mrun;
    reflexivity.
Qed.

Lemma validate_spec E l s w :
  heap w !! l = Some s ->
  (rejects E w s = true ->
     exists n, (ticks w < n)%nat /\
       _validate_session E l w = (Ok false, with_ticks n w)) /\
  (rejects E w s = false ->
     _validate_session E l w = _test_session_connectivity E l (before_probe l s w)).
Proof.
  intros Hl. unfold rejects, before_probe, _validate_session.
  munfold. rewrite Hl. cbn [heap with_ticks with_heap ticks].
  destruct (clock E (ticks w) >? expires_at s) eqn:Hexp; cbn [orb].
  { split; [intros _; eexists; split; [|reflexivity]; lia | discriminate]. }
  destruct (decide (state s = RATE_LIMITED)) as [Hrl|Hrl].
  - rewrite bool_decide_eq_false_2 by congruence.
    rewrite bool_decide_eq_true_2 by done. cbn [orb andb].
    destruct (rate_limit_reset s) as [r|] eqn:Hr.
    + cbn. destruct (clock E (S (ticks w)) <? r) eqn:Hc.
      * split; [intros _; eexists; split; [|reflexivity]; lia|discriminate].
      * split; [discriminate|]. intros _. cbn. rewrite Hl. cbn.
        rewrite list_lookup_insert_eq by (by eapply lookup_lt_Some).
        cbn. unfold recovered. cbn. reflexivity.
    + split; [discriminate|]. intros _. cbn. rewrite Hl. cbn.
        rewrite list_lookup_insert_eq by (by eapply lookup_lt_Some).
        cbn. reflexivity.
  - rewrite (bool_decide_eq_false_2 (state s = RATE_LIMITED)) by done. cbn [andb].
    rewrite orb_false_r. cbn. rewrite Hl.
    destruct (decide (state s = BLOCKED)).
    + rewrite bool_decide_eq_true_2 by done.
      split; [intros _; eexists; split; [|reflexivity]; lia|discriminate].
    + rewrite bool_decide_eq_false_2 by done. split; [discriminate|done].
Qed.

(** ** The platform tables *)

Lemma urls_configs p url :
  platform_urls !! p = Some url ->
  String.eqb url "" = false /\ is_Some (platform_configs !! p).
Proof.
  revert p url.
  change (map_Forall (fun p url => String.eqb url "" = false /\
            is_Some (platform_configs !! p)) platform_urls).
  apply (bool_decide_unpack _). vm_compute. exact I.
Qed.

Lemma configs_urls p cfg :
  platform_configs !! p = Some cfg ->
  is_Some (platform_urls !! p) /\
  0 < cfg_max_requests_per_hour cfg /\ 0 < session_lifetime_hours cfg.
Proof.
  revert p cfg.
  change (map_Forall (fun p cfg => is_Some (platform_urls !! p) /\
            0 < cfg_max_requests_per_hour cfg /\
            0 < session_lifetime_hours cfg) platform_configs).
  apply (bool_decide_unpack _). vm_compute. exact I.
Qed.

Lemma unknown_platform_no_url p :
  platform_configs !! p = None -> platform_urls !! p = None.
Proof.
  intros Hc. destruct (platform_urls !! p) as [url|] eqn:Hu; [|done].
  apply urls_configs in Hu as [_ [cfg Hcfg]]. congruence.
Qed.

(** ** Objects at the end of the heap *)

Lemma lookup_snoc {A} (h : list A) (x : A) : (h ++ [x]) !! length h = Some x.
Proof. by apply list_lookup_middle. Qed.

Lemma insert_snoc {A} (h : list A) (x y : A) :
  <[length h := y]> (h ++ [x]) = h ++ [y].
Proof. induction h as [|a h IH]; [done|]. simpl. f_equal. exact IH. Qed.

Ltac snoc_simpl :=
  repeat first [ rewrite lookup_snoc | rewrite insert_snoc ].

(** ** Session creation in closed form *)

Lemma viewport_width :
  ({[ "width" := 1920; "height" := 1080 ]} : gmap string Z) !! "width" = Some 1920.
Proof. reflexivity. Qed.

Lemma viewport_height :
  ({[ "width" := 1920; "height" := 1080 ]} : gmap string Z) !! "height" = Some 1080.
Proof. reflexivity. Qed.

Lemma create_run E p w : _create_new_session E p w = created E p w.
Proof.
  unfold _create_new_session, created, new_session_of, fresh_session,
    _generate_session_id, _generate_fingerprint, _initialize_session,
    _process_session_init_result, _execute_computer_action.
  munfold. cbn. snoc_simpl. cbn. snoc_simpl. cbn.
  destruct (platform_urls !! p) as [url|] eqn:Hu; [|done].
  destruct (urls_configs _ _ Hu) as [Hne [cfg Hcfg]].
  rewrite Hne, Hcfg.
  rewrite viewport_width, viewport_height. cbn.
  unfold init_prompt.
  destruct (gateway E (calls w) _) as [r|msg] eqn:Hg; cbn.
  - destruct (is_success r); repeat first [progress cbn | progress snoc_simpl];
      reflexivity.
  - snoc_simpl. reflexivity.
Qed.

Lemma persist_run E l s w :
  heap w !! l = Some s ->
  _persist_session E l w =
    (Ok tt,
     mkWorld (heap w) (active_sessions w) (session_locks w)
       (write_file (session_file s) (clock E (ticks w)) (Pickled (asdict s))
          (storage w))
       (S (ticks w)) (calls w) (actions w)).
Proof.
  intros Hl. unfold _persist_session. munfold. rewrite Hl. reflexivity.
Qed.

Lemma created_heap E p w :
  exists s, heap (created E p w).2 = heap w ++ [s] /\
    platform s = p /\
    session_id s = session_id_of E p w /\
    created_at s = clock E (S (ticks w)) /\
    expires_at s = expires_at (new_session_of E p w) /\
    max_requests_per_hour s = max_requests_per_hour (new_session_of E p w) /\
    request_count s = 0 /\ rate_limit_reset s = None /\
    match (created E p w).1 with
    | Ok l => l = length (heap w) /\ state s = ACTIVE
    | Raise (UnknownPlatform q) =>
        q = p /\ platform_configs !! p = None /\ state s = INITIALIZING
    | Raise (InitFailed q _) =>
        q = p /\ is_Some (platform_configs !! p) /\ state s = ERROR
    | Raise _ => False
    end.
Proof.
  unfold created.
  destruct (platform_urls !! p) as [url|] eqn:Hu.
  - destruct (urls_configs _ _ Hu) as [_ [cfg Hcfg]]. rewrite Hcfg.
    destruct (gateway E (calls w) _) as [r|msg].
    + destruct (is_success r); eexists; (split; [reflexivity|]); cbn;
        split_and!; eauto.
    + eexists; (split; [reflexivity|]); cbn; split_and!; eauto.
  - eexists; (split; [reflexivity|]); cbn; split_and!; eauto.
    destruct (platform_configs !! p) as [cfg|] eqn:Hcfg; [|done].
    apply configs_urls in Hcfg as [[url Hurl] _]. congruence.
Qed.

Lemma created_same E p w :
  storage (created E p w).2 = storage w /\
  active_sessions (created E p w).2 = active_sessions w /\
  session_locks (created E p w).2 = session_locks w /\
  (ticks w < ticks (created E p w).2)%nat.
Proof.
  unfold created.
  destruct (platform_urls !! p), (platform_configs !! p); cbn;
    try (split_and!; [done..|lia]).
  destruct (gateway E (calls w) _) as [r|msg]; [destruct (is_success r)|];
    cbn; (split_and!; [done..|lia]).
Qed.

Lemma created_all P E p w :
  Stable P -> World_all P w -> World_all P (created E p w).2.
Proof.
  intros HP HW.
  assert (H0 : P (new_session_of E p w)) by apply (st_fresh P HP).
  assert (H1 : P (set_state INITIALIZING (new_session_of E p w))).
  { apply (st_init P HP); auto. }
  assert (H2 : P (init_failed (new_session_of E p w))).
  { apply (st_init P HP); auto. }
  assert (H3 : forall r t, P (activated r t (new_session_of E p w))).
  { intros r t. unfold activated.
    apply (st_last_activity P HP), (st_init P HP); [by right|auto|].
    by apply (st_session_storage P HP), (st_local_storage P HP),
      (st_auth_tokens P HP), (st_cookies P HP). }
  unfold created.
  destruct (platform_urls !! p), (platform_configs !! p);
    try (by apply (World_all_alloc P w)).
  destruct (gateway E (calls w) _) as [r|msg]; [destruct (is_success r)|];
    by apply (World_all_alloc P w).
Qed.

(** ** Every operation keeps a stable property of the sessions *)

Lemma World_all_write P w l s t :
  heap w !! l = Some s -> World_all P w ->
  World_all P
    (with_storage (write_file (session_file s) t (Pickled (asdict s)) (storage w)) w).
Proof.
  intros Hl [H1 H2]. split; [done|]. cbn.
  intros f d s' [Hf| ->]%elem_of_write_file Hc Hd; [eauto|].
  change (Pickled (asdict s) = Pickled d) in Hc. injection Hc as <-.
  rewrite asdict_roundtrip in Hd. injection Hd as <-. eauto.
Qed.

Lemma update_activity_all P E l s w :
  Stable P -> World_all P w ->
  heap w !! l = Some s -> state s <> RATE_LIMITED -> state s <> BLOCKED ->
  wp (_update_session_activity E l)
     (fun r w' => r = Ok tt /\ World_all P w' /\
        active_sessions w' = active_sessions w /\
        length (heap w') = length (heap w)) w.
Proof.
  intros HP HW Hl Hrl Hbl. unfold wp.
  rewrite (update_activity_run E l s w Hl). cbn. split_and!; try done.
  - set (s' := bumped _ _ s).
    assert (Hs' : P s') by (apply (st_bump P HP); destruct HW; eauto).
    pose proof (World_all_update P w l s' (mk_is_Some _ _ Hl) Hs' HW) as HW'.
    apply (World_all_write P _ l s' (clock E
      (if request_count s + 1 >=? max_requests_per_hour s
       then S (S (ticks w)) else S (ticks w)))) in HW'; [exact HW'|].
    cbn. apply list_lookup_insert_eq. by eapply lookup_lt_Some.
  - by rewrite length_insert.
Qed.

Lemma cached_post P E p f w :
  Stable P -> World_all P w ->
  wp (get_session_cached E p f)
     (fun r w' => World_all P w' /\
        match r with
        | Ok (Some l) => is_Some (heap w' !! l)
        | _ => storage w' = storage w /\
               active_sessions w' ⊆ active_sessions w
        end) w.
Proof.
  intros HP HW. unfold get_session_cached. apply wp_bind, wp_get.
  destruct (active_sessions w !! p) as [l|]; [|by apply wp_ret].
  destruct f; [by apply wp_ret|].
  apply wp_bind. eapply wp_mono; [|by apply validate_all].
  cbn. intros [[|]|e] w1 (HW1&Hs1&Ha1&Hlen&Hv).
  - destruct Hv as (s1&Hl1&Hrl&Hbl); [done|].
    apply wp_bind. eapply wp_mono; [|by eapply update_activity_all].
    cbn. intros r w2 (->&HW2&Ha2&Hlen2). apply wp_ret. split; [done|].
    apply lookup_lt_is_Some. rewrite Hlen2. by eapply lookup_lt_Some.
  - apply wp_bind, wp_modify, wp_ret. split; [by apply (World_all_same_data P w1)|].
    cbn. split; [done|]. rewrite Ha1. apply delete_subseteq.
  - split; [done|]. by rewrite Ha1.
Qed.

Lemma restored_post P E p f w :
  Stable P -> World_all P w ->
  wp (get_session_restored E p f)
     (fun r w' => World_all P w' /\
        match r with
        | Ok (Some l) => is_Some (heap w' !! l)
        | _ => storage w' = storage w /\
               active_sessions w' = active_sessions w
        end) w.
Proof.
  intros HP HW. unfold get_session_restored.
  destruct f; [by apply wp_ret|].
  apply wp_bind. eapply wp_mono; [|by apply restore_all].
  cbn. intros [[l|]|e] w1 (HW1&Hs1&Ha1&Hl1); [| |done].
  2:{ by apply wp_ret. }
  apply wp_bind. eapply wp_mono; [|by apply validate_all].
  cbn. intros [[|]|e] w2 (HW2&Hs2&Ha2&Hlen&Hv).
  - apply wp_bind, wp_modify, wp_ret. split; [by apply (World_all_same_data P w2)|].
    cbn. destruct Hv as (s2&Hl2&_); eauto.
  - apply wp_ret. split; [done|]. split; congruence.
  - split; [done|]. split; congruence.
Qed.

Lemma created_post P E p w :
  Stable P -> World_all P w ->
  wp (get_session_created E p)
     (fun r w' => World_all P w' /\
        match r with
        | Ok l => is_Some (heap w' !! l)
        | Raise _ => storage w' = storage w /\
                     active_sessions w' = active_sessions w
        end) w.
Proof.
  intros HP HW. unfold get_session_created. apply wp_bind.
  unfold wp at 1. rewrite create_run.
  pose proof (created_all P E p w HP HW) as HW1.
  destruct (created_same E p w) as (Hs1&Ha1&_&_).
  destruct (created_heap E p w) as (s&Hh&_&_&_&_&_&_&_&Hr).
  destruct (created E p w) as [[l|e] w1]; cbn in *; [|done].
  destruct Hr as [-> _].
  assert (Hl : heap w1 !! length (heap w) = Some s).
  { rewrite Hh. apply lookup_snoc. }
  apply wp_bind, wp_modify, wp_bind. unfold wp at 1.
  rewrite (persist_run E _ s) by done. cbn. apply wp_ret.
  split; [|eauto].
  apply (World_all_write P
    (with_active (<[p:=length (heap w)]> (active_sessions w1)) w1)
    (length (heap w)) s); [done|].
  by apply (World_all_same_data P w1).
Qed.

Lemma get_session_post P E p f w :
  Stable P -> World_all P w ->
  wp (get_session E p f)
     (fun r w' => World_all P w' /\
        match r with
        | Ok l => is_Some (heap w' !! l)
        | Raise _ => storage w' = storage w /\
                     active_sessions w' ⊆ active_sessions w
        end) w.
Proof.
  intros HP HW. unfold get_session, get_session_lookup.
  apply wp_bind, wp_modify, wp_bind, wp_bind.
  eapply wp_mono; [|apply cached_post; [done|by apply (World_all_same_data P w)]].
  cbn. intros [[l|]|e] w1 [HW1 H1]; [by do 2 apply wp_ret| |done].
  destruct H1 as [Hs1 Ha1]. cbn in Hs1, Ha1.
  eapply wp_mono; [|by apply restored_post].
  cbn. intros [[l|]|e] w2 [HW2 H2]; [by apply wp_ret| |].
  - destruct H2 as [Hs2 Ha2].
    eapply wp_mono; [|by apply created_post].
    cbn. intros [l|e] w3 [HW3 H3]; [done|].
    destruct H3 as [Hs3 Ha3]. split; [done|].
    split; [congruence|by rewrite Ha3, Ha2].
  - destruct H2 as [Hs2 Ha2]. split; [done|].
    split; [congruence|by rewrite Ha2].
Qed.

Lemma handle_rate_limit_run E l msg s w :
  heap w !! l = Some s ->
  let s' := rate_limited (clock E (ticks w)) msg s in
  handle_rate_limit E l msg w =
    (Ok (mkInfo (rate_limit_wait (platform s) msg) (rate_limit_reset s')),
     mkWorld (<[l := s']> (heap w)) (active_sessions w) (session_locks w)
       (write_file (session_file s') (clock E (S (ticks w)))
          (Pickled (asdict s')) (storage w))
       (S (S (ticks w))) (calls w) (actions w)).
Proof.
  intros Hl s'. unfold handle_rate_limit, _persist_session.
  munfold. rewrite Hl. mrun. reflexivity.
Qed.

Lemma handle_rate_limit_dangling E l msg w :
  heap w !! l = None -> handle_rate_limit E l msg w = (Raise (Dangling l), w).
Proof.
  intros Hl. unfold handle_rate_limit. munfold. by rewrite Hl.
Qed.

Lemma handle_auth_run E l s w :
  heap w !! l = Some s ->
  handle_authentication_required E l w = auth_handled E l s w.
Proof.
  intros Hl.
  unfold handle_authentication_required, auth_handled, _persist_session,
    _execute_computer_action, authenticated.
  munfold. rewrite Hl. cbn.
  destruct (gateway E (calls w) _) as [r|msg]; cbn.
  - destruct (is_success r); cbn; rewrite Hl; mrun; reflexivity.
  - rewrite Hl. reflexivity.
Qed.

Lemma handle_auth_dangling E l w :
  heap w !! l = None ->
  handle_authentication_required E l w = (Raise (Dangling l), w).
Proof.
  intros Hl. unfold handle_authentication_required. munfold. by rewrite Hl.
Qed.

Lemma World_all_set P w l s s' t :
  heap w !! l = Some s -> P s' -> World_all P w ->
  World_all P
    (mkWorld (<[l := s']> (heap w)) (active_sessions w) (session_locks w)
       (write_file (session_file s') t (Pickled (asdict s')) (storage w))
       (ticks w) (calls w) (actions w)).
Proof.
  intros Hl Hs' HW.
  pose proof (World_all_update P w l s' (mk_is_Some _ _ Hl) Hs' HW) as HW'.
  apply (World_all_write P _ l s' t) in HW'; [exact HW'|].
  cbn. apply list_lookup_insert_eq. by eapply lookup_lt_Some.
Qed.

Lemma handle_rate_limit_all P E l msg w :
  Stable P -> World_all P w -> World_all P (handle_rate_limit E l msg w).2.
Proof.
  intros HP HW. destruct (heap w !! l) as [s|] eqn:Hl.
  - rewrite (handle_rate_limit_run E l msg s w Hl). cbn.
    eapply (World_all_set P w l s); [done| |done].
    apply (st_rate_limit P HP). destruct HW; eauto.
  - by rewrite handle_rate_limit_dangling.
Qed.

Lemma handle_auth_all P E l w :
  Stable P -> AuthStable P -> World_all P w ->
  World_all P (handle_authentication_required E l w).2.
Proof.
  intros HP HA HW. destruct (heap w !! l) as [s|] eqn:Hl.
  2:{ by rewrite handle_auth_dangling. }
  rewrite (handle_auth_run E l s w Hl). unfold auth_handled.
  assert (Hs : P s) by (destruct HW; eauto).
  assert (He : P (set_state ERROR s)) by by apply (st_auth_error P HA).
  destruct (gateway E (calls w) _) as [r|msg]; [destruct (is_success r)|]; cbn.
  - eapply (World_all_set P w l s); [done| |done].
    by apply (st_auth_ok P HA), (st_cookies P HP), (st_auth_tokens P HP).
  - by apply (World_all_update P w l _ (mk_is_Some _ _ Hl)).
  - by apply (World_all_update P w l _ (mk_is_Some _ _ Hl)).
Qed.

Lemma cleanup_all P E w :
  World_all P w -> World_all P (cleanup_expired_sessions E w).2.
Proof.
  intros [H1 H2]. split; [done|]. cbn.
  intros f d s [_ Hf]%list_elem_of_filter. eauto.
Qed.

Lemma run_op_all P E o w :
  Stable P -> (is_auth_op o = true -> AuthStable P) ->
  World_all P w -> World_all P (run_op E o w).
Proof.
  intros HP HA HW. destruct o as [p f | l msg | l | | ]; cbn.
  - by apply (get_session_post P E p f w).
  - by apply handle_rate_limit_all.
  - apply handle_auth_all; auto.
  - by apply cleanup_all.
  - done.
Qed.

Lemma run_ops_all P E os w :
  Stable P -> (forallb (fun o => negb (is_auth_op o)) os = false -> AuthStable P) ->
  World_all P w -> World_all P (run_ops E os w).
Proof.
  intros HP. revert w. induction os as [|o os IH]; intros w HA HW; [done|].
  cbn. apply IH.
  - intros Hf. apply HA. cbn. rewrite Hf. apply andb_false_r.
  - apply run_op_all; [done| |done].
    intros Ho. apply HA. cbn. by rewrite Ho.
Qed.

Lemma World_all_init P : World_all P init_world.
Proof. split; cbn; [intros l s Hl|intros f d s Hf]; [done|]. by apply elem_of_nil in Hf. Qed.

(** ** The two invariants are stable *)

Lemma reset_recorded_stable : Stable reset_recorded.
Proof.
  split; unfold reset_recorded; cbn; try done.
  - intros s v [Hs|Hs] [-> | [-> | ->]]; done.
  - intros s t t' Hrl Hbl H. unfold bumped. cbn.
    destruct (_ >=? _); cbn; [done|]. intros; contradiction.
Qed.

Lemma reset_recorded_auth_stable : AuthStable reset_recorded.
Proof. split; unfold reset_recorded; cbn; done. Qed.



(** ** The connectivity probe *)

Lemma probe_run E l s cfg w :
  heap w !! l = Some s ->
  platform_configs !! platform s = Some cfg ->
  _test_session_connectivity E l w =
    (Ok (probe_answer
           (gateway E (calls w)
              (ConnectivityPrompt (platform s) (session_indicators cfg)))),
     performed (ConnectivityPrompt (platform s) (session_indicators cfg)) w).
Proof.
  intros Hl Hc. unfold _test_session_connectivity, _execute_computer_action.
  munfold. rewrite Hl, Hc.
  destruct (gateway E (calls w) _) as [r|msg]; reflexivity.
Qed.

Lemma probe_unknown E l s w :
  heap w !! l = Some s ->
  platform_configs !! platform s = None ->
  _test_session_connectivity E l w = (Raise (KeyError (platform s)), w).
Proof.
  intros Hl Hc. unfold _test_session_connectivity. munfold.
  by rewrite Hl, Hc.
Qed.

(** ** The validity check *)

(** C6. The validity check of a session [s]: it answers false, without
    touching any session, when [s] is expired, blocked, or rate limited
    with a reset time not yet reached; in every other case it answers
    what the connectivity probe answers (run after the rate-limit recovery,
    if there is one).  A state other than [BLOCKED] and [RATE_LIMITED]
    never decides: the session is then turned down exactly when it is
    expired.  For a configured platform the probe answers whether the
    remote action reported success. *)
Theorem validate_session_spec E l s w :
  heap w !! l = Some s ->
  (rejects E w s = true ->
     exists n, _validate_session E l w = (Ok false, with_ticks n w)) /\
  (rejects E w s = false ->
     _validate_session E l w =
       _test_session_connectivity E l (before_probe l s w)) /\
  (state s <> BLOCKED -> state s <> RATE_LIMITED ->
     rejects E w s = (clock E (ticks w) >? expires_at s)) /\
  (forall cfg, rejects E w s = false ->
     platform_configs !! platform s = Some cfg ->
     (_validate_session E l w).1 =
       Ok (probe_answer
             (gateway E (calls w)
                (ConnectivityPrompt (platform s) (session_indicators cfg))))).
Proof.
  intros Hl. destruct (validate_spec E l s w Hl) as [H1 H2].
  split; [intros Hrej; destruct (H1 Hrej) as (n & _ & Hn); eauto|].
  split; [done|]. split.
  - intros Hb Hr. unfold rejects.
    rewrite !bool_decide_eq_false_2 by done. cbn. by rewrite !orb_false_r.
  - intros cfg Hrej Hcfg. rewrite H2 by done.
    unfold before_probe.
    destruct (decide (state s = RATE_LIMITED)).
    + erewrite (probe_run E l (recovered s) cfg); [done| |done].
      cbn. apply list_lookup_insert_eq. by eapply lookup_lt_Some.
    + by erewrite (probe_run E l s cfg).
Qed.

Lemma validate_session_spec_witness :
  heap (chatgpt_world (source_env fast_clock)) !! 0%nat
    = Some (session_at 0 (chatgpt_world (source_env fast_clock))) /\
  rejects (source_env fast_clock) (chatgpt_world (source_env fast_clock))
    (session_at 0 (chatgpt_world (source_env fast_clock))) = false /\
  (_validate_session (source_env fast_clock) 0
     (chatgpt_world (source_env fast_clock))).1 = Ok true.
Proof.
  assert (Hl : heap (chatgpt_world (source_env fast_clock)) !! 0%nat
    = Some (session_at 0 (chatgpt_world (source_env fast_clock))))
    by (vm_compute; reflexivity).
  assert (Hr : rejects (source_env fast_clock) (chatgpt_world (source_env fast_clock))
    (session_at 0 (chatgpt_world (source_env fast_clock))) = false)
    by (vm_compute; reflexivity).
  split; [exact Hl|]. split; [exact Hr|].
  destruct (validate_session_spec (source_env fast_clock) _ _ _ Hl)
    as (_ & _ & _ & H).
  destruct (platform_configs !! "chatgpt") as [cfg|] eqn:Hc;
    [|vm_compute in Hc; discriminate].
  rewrite (H cfg Hr Hc). reflexivity.
Defined.

(** ** The authentication handler *)



(** ** The lookup attempts and the creation path *)

Lemma True_stable : Stable (fun _ => True).
Proof. by split. Qed.

Lemma World_all_True w : World_all (fun _ => True) w.
Proof. by split. Qed.

Lemma lookup_post P E p f w :
  Stable P -> World_all P w ->
  wp (get_session_lookup E p f)
     (fun r w' => World_all P w' /\
        match r with
        | Ok (Some l) => is_Some (heap w' !! l)
        | _ => storage w' = storage w /\
               active_sessions w' ⊆ active_sessions w
        end) w.
Proof.
  intros HP HW. unfold get_session_lookup. apply wp_bind.
  eapply wp_mono; [|by apply cached_post].
  cbn. intros [[l|]|e] w1 [HW1 H1]; [by apply wp_ret| |done].
  destruct H1 as [Hs1 Ha1].
  eapply wp_mono; [|by apply restored_post].
  cbn. intros [[l|]|e] w2 [HW2 H2]; [done| |].
  - destruct H2 as [Hs2 Ha2]. split; [done|].
    split; [congruence|by rewrite Ha2].
  - destruct H2 as [Hs2 Ha2]. split; [done|].
    split; [congruence|by rewrite Ha2].
Qed.

Lemma lookup_none_same E p f w w1 :
  get_session_lookup E p f w = (Ok None, w1) ->
  storage w1 = storage w /\ active_sessions w1 ⊆ active_sessions w.
Proof.
  intros Hrun.
  pose proof (lookup_post _ E p f w True_stable (World_all_True w)) as H.
  unfold wp in H. rewrite Hrun in H. by destruct H.
Qed.

Lemma get_session_run E p f w :
  get_session E p f w =
    match get_session_lookup E p f (with_locks ({[p]} ∪ session_locks w) w) with
    | (Ok (Some l), w1) => (Ok l, w1)
    | (Ok None, w1) => get_session_created E p w1
    | (Raise e, w1) => (Raise e, w1)
    end.
Proof.
  unfold get_session. munfold.
  destruct (get_session_lookup E p f _) as [[[l|]|e] w1]; reflexivity.
Qed.

Lemma get_session_created_run E p w :
  get_session_created E p w =
    match created E p w with
    | (Ok l, w1) =>
        (Ok l,
         mkWorld (heap w1) (<[p := l]> (active_sessions w1)) (session_locks w1)
           (write_file (session_file (session_at l w1)) (clock E (ticks w1))
              (Pickled (asdict (session_at l w1))) (storage w1))
           (S (ticks w1)) (calls w1) (actions w1))
    | (Raise e, w1) => (Raise e, w1)
    end.
Proof.
  unfold get_session_created. munfold. rewrite create_run.
  destruct (created_heap E p w) as (s & Hh & _ & _ & _ & _ & _ & _ & _ & Hr).
  destruct (created E p w) as [[l|e] w1]; cbn in *; [|done].
  destruct Hr as [-> _].
  assert (Hl : heap w1 !! length (heap w) = Some s).
  { rewrite Hh. apply lookup_snoc. }
  unfold _persist_session, session_at. munfold. cbn. rewrite Hl. reflexivity.
Qed.

(** C5. When the lookup attempts of [get_session] find nothing, so that
    the creation path runs, and the initialization action of a configured
    platform does not return a success (it returns a failure, or it
    raises), then [get_session] raises the initialization failure, the
    session object built by the call is left in state [ERROR], the storage
    is what it was before the call, and the cache has no entry that it did
    not have before. *)
Theorem creation_failure E p f url cfg w w1 :
  platform_urls !! p = Some url ->
  platform_configs !! p = Some cfg ->
  get_session_lookup E p f (with_locks ({[p]} ∪ session_locks w) w)
    = (Ok None, w1) ->
  (forall r, gateway E (calls w1) (init_prompt p url cfg) = Returns r ->
     is_success r = false) ->
  exists cause s' w',
    get_session E p f w = (Raise (InitFailed p cause), w') /\
    heap w' = heap w1 ++ [s'] /\
    state s' = ERROR /\ platform s' = p /\
    storage w' = storage w /\
    active_sessions w' ⊆ active_sessions w.
Proof.
  intros Hu Hc Hlook Hfail.
  destruct (lookup_none_same _ _ _ _ _ Hlook) as [Hs Ha]. cbn in Hs, Ha.
  rewrite get_session_run, Hlook, get_session_created_run.
  unfold created. rewrite Hu, Hc.
  destruct (gateway E (calls w1) _) as [r|msg] eqn:Hg.
  - rewrite (Hfail r eq_refl). do 3 eexists. split; [reflexivity|].
    cbn. split_and!; done.
  - do 3 eexists. split; [reflexivity|]. cbn. split_and!; done.
Qed.

Lemma creation_failure_witness :
  platform_urls !! "chatgpt" = Some "https://chatgpt.com" /\
  get_session_lookup (init_failing_env fast_clock) "chatgpt" false
    (with_locks ({["chatgpt"]} ∪ session_locks init_world) init_world)
    = (Ok None, with_locks {["chatgpt"]} init_world) /\
  exists cause s' w',
    get_session (init_failing_env fast_clock) "chatgpt" false init_world
      = (Raise (InitFailed "chatgpt" cause), w') /\
    heap w' = [s'] /\ state s' = ERROR /\
    storage w' = [] /\ active_sessions w' ⊆ ∅.
Proof.
  assert (Hu : platform_urls !! "chatgpt" = Some "https://chatgpt.com")
    by (vm_compute; reflexivity).
  assert (Hl : get_session_lookup (init_failing_env fast_clock) "chatgpt" false
    (with_locks ({["chatgpt"]} ∪ session_locks init_world) init_world)
    = (Ok None, with_locks {["chatgpt"]} init_world))
    by (vm_compute; reflexivity).
  split; [exact Hu|]. split; [exact Hl|].
  destruct (platform_configs !! "chatgpt") as [cfg|] eqn:Hc;
    [|vm_compute in Hc; discriminate].
  destruct (creation_failure (init_failing_env fast_clock) "chatgpt" false
    _ cfg init_world _ Hu Hc Hl) as (cause & s' & w' & H1 & H2 & H3 & _ & H4 & H5).
  { intros r [= <-]. reflexivity. }
  exists cause, s', w'. split_and!; done.
Defined.

(** ** Expired sessions *)



Lemma glob_plain E p fs :
  plain_name p = true ->
  glob E p fs = Lists (filter (fun f => Is_true (glob_platform p (fname f))) fs).
Proof. intros Hp. unfold glob, matcher. by rewrite Hp. Qed.

Lemma restore_run E p w :
  _restore_session E p w =
    match glob E p (storage w) with
    | Fails msg => (Raise (ListingFault msg), w)
    | Lists _ =>
        match restorable E p w with
        | Some s => (Ok (Some (length (heap w))), with_heap (heap w ++ [s]) w)
        | None => (Ok None, w)
        end
    end.
Proof.
  unfold _restore_session, restorable. munfold.
  destruct (glob E p (storage w)) as [[|f fs]|msg]; [done| |done].
  destruct (content (max_by mtime f fs)) as [d|]; [|done].
  destruct (SessionData_of_dict d); done.
Qed.

Lemma restorable_lists E p w s :
  restorable E p w = Some s -> exists fs, glob E p (storage w) = Lists fs.
Proof.
  unfold restorable. destruct (glob E p (storage w)) as [fs|msg]; [eauto|done].
Qed.

Lemma restore_some E p w s :
  restorable E p w = Some s ->
  _restore_session E p w =
    (Ok (Some (length (heap w))), with_heap (heap w ++ [s]) w).
Proof.
  intros Hr. rewrite restore_run.
  destruct (restorable_lists E p w s Hr) as [fs ->]. by rewrite Hr.
Qed.



Lemma restorable_same E p w w' :
  storage w' = storage w -> restorable E p w' = restorable E p w.
Proof. unfold restorable. by intros ->. Qed.



(** *** What a returned session was validated against *)




Lemma validate_true E l w w' :
  _validate_session E l w = (Ok true, w') ->
  exists s', heap w' !! l = Some s' /\ clock E (ticks w) <= expires_at s'.
Proof.
  intros Hrun. destruct (heap w !! l) as [s|] eqn:Hl.
  2:{ unfold _validate_session in Hrun. munfold. by rewrite Hl in Hrun. }
  destruct (validate_spec E l s w Hl) as [H1 H2].
  destruct (rejects E w s) eqn:Hrej.
  { destruct H1 as (n & _ & Hn); congruence. }
  assert (Hexp : clock E (ticks w) <= expires_at s).
  { unfold rejects in Hrej. apply orb_false_iff in Hrej as [Hrej _].
    apply orb_false_iff in Hrej as [Hrej _].
    rewrite Z.gtb_ltb in Hrej. by apply Z.ltb_ge in Hrej. }
  rewrite H2 in Hrun by done.
  pose proof (probe_same E l (before_probe l s w)) as (Hh & _).
  rewrite Hrun in Hh. cbn in Hh. rewrite Hh. unfold before_probe.
  destruct (decide (state s = RATE_LIMITED)); cbn.
  - exists (recovered s). split; [|done].
    apply list_lookup_insert_eq. by eapply lookup_lt_Some.
  - by exists s.
Qed.







(** ** Unknown platforms *)

(** C8, as stated, fails: [get_session] on a platform that the tables do
    not know raises [ValueError("Unknown platform: ...")]. *)
Lemma unknown_target_fails :
  (get_session (source_env fast_clock) "claude" false init_world).1
    = Raise (UnknownPlatform "claude") /\
  ~ exists l w',
      get_session (source_env fast_clock) "claude" false init_world = (Ok l, w').
Proof.
  assert (H : (get_session (source_env fast_clock) "claude" false init_world).1
    = Raise (UnknownPlatform "claude")) by (vm_compute; reflexivity).
  split; [exact H|]. intros (l & w' & Hrun). rewrite Hrun in H. discriminate.
Qed.


(** ** Strings and file names *)

Lemma string_length_append a b :
  String.length (a +:+ b) = (String.length a + String.length b)%nat.
Proof. induction a as [|c a IH]; simpl; [done|]. f_equal. exact IH. Qed.







(** ** The most recent file *)



(** ** Session identifiers *)

Lemma session_id_same_second E p w w' :
  Z.quot (clock E (ticks w)) 1000000 = Z.quot (clock E (ticks w')) 1000000 ->
  session_id_of E p w = session_id_of E p w'.
Proof. unfold session_id_of. by intros ->. Qed.

(** C7 fails on the code: two sessions created for one platform within
    one second of the clock are two objects with the same [session_id]
    (the identifier is the platform, the second and a hash of the platform
    again), and the file of the second overwrites the file of the first. *)
Theorem session_id_not_unique :
  (first_forced (source_env fast_clock)).1 = Ok 0%nat /\
  (second_forced (source_env fast_clock)).1 = Ok 1%nat /\
  session_id <$> heap (second_forced (source_env fast_clock)).2 !! 0%nat
    = Some "chatgpt_1000_4f642e38" /\
  session_id <$> heap (second_forced (source_env fast_clock)).2 !! 1%nat
    = Some "chatgpt_1000_4f642e38" /\
  fname <$> storage (second_forced (source_env fast_clock)).2
    = ["chatgpt_chatgpt_1000_4f642e38.pkl"].
Proof. vm_compute. repeat split. Qed.

(** ** The reset time of rate-limited sessions *)

(** C2, as stated, fails: after a rate limit has been reported and its
    reset time has passed, the validity check puts the session back in
    state [ACTIVE] and the reset time stays recorded. *)
Lemma reset_time_survives_recovery :
  state <$> heap (run_ops (source_env slow_clock) limit_then_recover init_world) !! 0%nat
    = Some ACTIVE /\
  rate_limit_reset <$>
    heap (run_ops (source_env slow_clock) limit_then_recover init_world) !! 0%nat
    = Some (Some 8800000000) /\
  ~ World_all reset_iff_limited
      (run_ops (source_env slow_clock) limit_then_recover init_world).
Proof.
  assert (Hl : heap (run_ops (source_env slow_clock) limit_then_recover init_world) !! 0%nat
    = Some (session_at 0 (run_ops (source_env slow_clock) limit_then_recover init_world)))
    by (vm_compute; reflexivity).
  split; [vm_compute; reflexivity|]. split; [vm_compute; reflexivity|].
  intros [H _]. destruct (H _ _ Hl) as [H1 _].
  assert (Hs : state (session_at 0
    (run_ops (source_env slow_clock) limit_then_recover init_world)) = ACTIVE)
    by (vm_compute; reflexivity).
  rewrite Hs in H1. discriminate H1. vm_compute. discriminate.
Qed.

(** C2, as amended.  In every world reached from the initial one by a
    sequence of public operations, every session object, and every session
    the storage can give back, that is in state [RATE_LIMITED] has a reset
    time recorded.  The recovery of the validity check puts a rate-limited
    session whose reset time has passed in state [ACTIVE] with a request
    count of 0, and leaves the recorded reset time as it is. *)
Theorem reset_recorded_invariant E :
  (forall os, World_all reset_recorded (run_ops E os init_world)) /\
  (forall l s w,
     heap w !! l = Some s -> state s = RATE_LIMITED -> rejects E w s = false ->
     heap (_validate_session E l w).2 !! l = Some (recovered s) /\
     state (recovered s) = ACTIVE /\
     request_count (recovered s) = 0 /\
     rate_limit_reset (recovered s) = rate_limit_reset s).
Proof.
  split.
  - intros os. apply run_ops_all.
    + apply reset_recorded_stable.
    + intros _. apply reset_recorded_auth_stable.
    + apply World_all_init.
  - intros l s w Hl Hrl Hrej. split; [|done].
    destruct (validate_spec E l s w Hl) as [_ H2]. rewrite H2 by done.
    pose proof (probe_same E l (before_probe l s w)) as (Hh & _).
    rewrite Hh. unfold before_probe. rewrite decide_True by done. cbn.
    apply list_lookup_insert_eq. by eapply lookup_lt_Some.
Qed.

Lemma reset_recorded_invariant_witness :
  heap (run_ops (source_env slow_clock)
          [GetSession "chatgpt" false; HandleRateLimit 0 None] init_world) !! 0%nat
    = Some (session_at 0 (run_ops (source_env slow_clock)
          [GetSession "chatgpt" false; HandleRateLimit 0 None] init_world)) /\
  state (session_at 0 (run_ops (source_env slow_clock)
          [GetSession "chatgpt" false; HandleRateLimit 0 None] init_world))
    = RATE_LIMITED /\
  state <$> heap (_validate_session (source_env slow_clock) 0
      (run_ops (source_env slow_clock)
          [GetSession "chatgpt" false; HandleRateLimit 0 None] init_world)).2 !! 0%nat
    = Some ACTIVE /\
  World_all reset_recorded
    (run_ops (source_env slow_clock) limit_then_recover init_world).
Proof.
  destruct (reset_recorded_invariant (source_env slow_clock)) as [Hinv Hrec].
  assert (Hl : heap (run_ops (source_env slow_clock)
          [GetSession "chatgpt" false; HandleRateLimit 0 None] init_world) !! 0%nat
    = Some (session_at 0 (run_ops (source_env slow_clock)
          [GetSession "chatgpt" false; HandleRateLimit 0 None] init_world)))
    by (vm_compute; reflexivity).
  assert (Hs : state (session_at 0 (run_ops (source_env slow_clock)
          [GetSession "chatgpt" false; HandleRateLimit 0 None] init_world))
    = RATE_LIMITED) by (vm_compute; reflexivity).
  split; [exact Hl|]. split; [exact Hs|]. split; [|apply Hinv].
  destruct (Hrec _ _ _ Hl Hs) as (Hh & _); [vm_compute; reflexivity|].
  rewrite Hh. reflexivity.
Defined.

(** ** The request counter *)




(** * Further properties of the manager *)

(** ** States and settings that no operation touches *)

Lemma never_assigned_stable : Stable never_assigned.
Proof.
  split; unfold never_assigned; cbn; try done.
  - intros s v _ [-> | [-> | ->]] _; done.
  - intros s t t' _ Hb [_ He]. unfold bumped. cbn.
    destruct (_ >=? _); cbn; done.
Qed.

Lemma never_assigned_auth_stable : AuthStable never_assigned.
Proof. split; unfold never_assigned; cbn; done. Qed.

(** X1. No sequence of public operations puts a session in state
    [BLOCKED] or [EXPIRED]: in every world reached from the initial one,
    no session object and no stored session is in one of these states
    (expiry is only ever computed from [expires_at]). *)
Theorem blocked_and_expired_never_assigned E os :
  World_all never_assigned (run_ops E os init_world).
Proof.
  apply run_ops_all.
  - apply never_assigned_stable.
  - intros _. apply never_assigned_auth_stable.
  - apply World_all_init.
Qed.

Lemma as_configured_stable : Stable as_configured.
Proof.
  split; unfold as_configured; cbn; try done.
  - intros s _ (Hm & Hu & Hv & Hc). split_and!; done.
  - intros s t t' _ _ (Hm & Hu & Hv & Hc). unfold bumped. cbn.
    destruct (_ >=? _); cbn; split_and!; try done; lia.
Qed.

Lemma as_configured_auth_stable : AuthStable as_configured.
Proof. split; unfold as_configured; cbn; done. Qed.

(** X2. In every world reached from the initial one by public
    operations, every session keeps the settings of its creation: its
    quota is the one configured for its platform, its user agent and
    viewport are the fixed ones, and its request counter is not
    negative. *)
Theorem sessions_stay_as_configured E os :
  World_all as_configured (run_ops E os init_world).
Proof.
  apply run_ops_all.
  - apply as_configured_stable.
  - intros _. apply as_configured_auth_stable.
  - apply World_all_init.
Qed.

(** ** Session identifiers, second by second *)

Lemma string_append_inj_r a b c : a +:+ b = a +:+ c -> b = c.
Proof.
  induction a as [|x a IH]; [done|].
  change (String x (a +:+ b) = String x (a +:+ c) -> b = c).
  intros [= H]. by apply IH.
Qed.

Lemma string_append_inj_l a b c : a +:+ c = b +:+ c -> a = b.
Proof.
  revert b. induction a as [|x a IH]; intros [|y b] H.
  - done.
  - apply (f_equal String.length) in H.
    rewrite !string_length_append in H. cbn in H. lia.
  - apply (f_equal String.length) in H.
    rewrite !string_length_append in H. cbn in H. lia.
  - change (String x (a +:+ c) = String y (b +:+ c)) in H.
    injection H as -> H. f_equal. by apply IH.
Qed.

Lemma str_of_Z_inj a b : str_of_Z a = str_of_Z b -> a = b.
Proof.
  unfold str_of_Z. intros H. apply DecimalZ.to_int_inj.
  assert (Hnn : forall z, Z.to_int z <> Decimal.Pos Decimal.Nil /\
                          Z.to_int z <> Decimal.Neg Decimal.Nil).
  { intros [|p|p]; cbn; split; try discriminate;
      intros [= Hp]; by apply DecimalPos.Unsigned.to_uint_nonnil in Hp. }
  assert (Hi : forall z, NilZero.int_of_string (NilZero.string_of_int (Z.to_int z))
                         = Some (Z.to_int z)).
  { intros z. destruct (Hnn z). by apply NilZero.isi. }
  pose proof (Hi a) as Ha. rewrite H, Hi in Ha. congruence.
Qed.

(** X3. Two identifiers generated for the same platform are equal
    exactly when they are generated within the same second of the clock:
    the second is the only part of an identifier that varies. *)
Theorem session_ids_by_second E p w w' :
  (_generate_session_id E p w).1 = (_generate_session_id E p w').1 <->
  Z.quot (clock E (ticks w)) 1000000 = Z.quot (clock E (ticks w')) 1000000.
Proof.
  change ((Ok (session_id_of E p w) : Result string)
            = Ok (session_id_of E p w') <->
          Z.quot (clock E (ticks w)) 1000000
            = Z.quot (clock E (ticks w')) 1000000).
  split.
  - intros [= H]. unfold session_id_of in H.
    apply string_append_inj_r, string_append_inj_r in H.
    apply string_append_inj_l in H. by apply str_of_Z_inj.
  - intros H. f_equal. by apply session_id_same_second.
Qed.

(** ** What the storage holds for a session *)

Lemma write_file_nil name t b : write_file name t b [] = [mkFile name t b].
Proof. reflexivity. Qed.

Lemma write_file_cons name t b f fs :
  write_file name t b (f :: fs) =
    if String.eqb (fname f) name then mkFile name t b :: fs
    else f :: write_file name t b fs.
Proof. reflexivity. Qed.

Lemma stored_session_write name t s fs :
  stored_session name (write_file name t (Pickled (asdict s)) fs) = Some s.
Proof.
  unfold stored_session. induction fs as [|f fs IH].
  - rewrite write_file_nil. cbn. rewrite String.eqb_refl. cbn.
    apply asdict_roundtrip.
  - rewrite write_file_cons. destruct (String.eqb (fname f) name) eqn:Hf.
    + cbn. rewrite String.eqb_refl. cbn. apply asdict_roundtrip.
    + cbn. rewrite Hf. exact IH.
Qed.

Lemma stored_session_write_ne name name' t b fs :
  name <> name' ->
  stored_session name' (write_file name t b fs) = stored_session name' fs.
Proof.
  intros Hne. unfold stored_session. induction fs as [|f fs IH].
  - rewrite write_file_nil. cbn.
    destruct (String.eqb_spec name name'); [done|]. done.
  - rewrite write_file_cons. destruct (String.eqb_spec (fname f) name) as [Hf|Hf].
    + cbn. rewrite Hf. destruct (String.eqb_spec name name'); done.
    + cbn. destruct (String.eqb (fname f) name'); [done|]. exact IH.
Qed.

(** ** The rate-limit handler *)

Lemma rate_limit_wait_table p msg : rate_limit_wait p msg ∈ wait_times.
Proof.
  unfold rate_limit_wait, wait_times.
  repeat match goal with
         | |- context [if ?b then _ else _] => destruct b
         end; set_solver.
Qed.

(** X4. [handle_rate_limit] on a session object never fails.  It puts
    the session in state [RATE_LIMITED] with a reset time that is the
    clock reading of the call plus the waiting time it returns, one of
    1800, 3600, 7200 and 86400 seconds, whatever state and reset time the
    session had; the request counter stays as it is.  The session is
    persisted, so the storage holds it as it is in memory; the cache and
    the other session objects are untouched. *)
Theorem handle_rate_limit_effect E l msg s w :
  heap w !! l = Some s ->
  exists info s' w',
    handle_rate_limit E l msg w = (Ok info, w') /\
    wait_time info ∈ wait_times /\
    reset_time info = Some (clock E (ticks w) + Time.seconds (wait_time info)) /\
    heap w' !! l = Some s' /\
    state s' = RATE_LIMITED /\
    rate_limit_reset s' = reset_time info /\
    request_count s' = request_count s /\
    stored_session (session_file s') (storage w') = Some s' /\
    active_sessions w' = active_sessions w /\
    forall l', l' <> l -> heap w' !! l' = heap w !! l'.
Proof.
  intros Hl. rewrite (handle_rate_limit_run E l msg s w Hl).
  do 3 eexists. split; [reflexivity|]. cbn.
  split; [apply rate_limit_wait_table|]. split; [done|].
  split; [apply list_lookup_insert_eq; by eapply lookup_lt_Some|].
  split; [done|]. split; [done|]. split; [done|].
  split; [apply stored_session_write|]. split; [done|].
  intros l' Hne. by apply list_lookup_insert_ne.
Qed.

Lemma handle_rate_limit_effect_witness :
  heap (chatgpt_world (source_env fast_clock)) !! 0%nat
    = Some (session_at 0 (chatgpt_world (source_env fast_clock))) /\
  exists info w',
    handle_rate_limit (source_env fast_clock) 0 (Some "try again in an hour")
      (chatgpt_world (source_env fast_clock)) = (Ok info, w') /\
    wait_time info ∈ wait_times /\
    state <$> heap w' !! 0%nat = Some RATE_LIMITED.
Proof.
  assert (Hl : heap (chatgpt_world (source_env fast_clock)) !! 0%nat
    = Some (session_at 0 (chatgpt_world (source_env fast_clock))))
    by (vm_compute; reflexivity).
  split; [exact Hl|].
  destruct (handle_rate_limit_effect (source_env fast_clock) 0
    (Some "try again in an hour") _ _ Hl)
    as (info & s' & w' & Hrun & Hw & _ & Hh & Hst & _).
  exists info, w'. split; [exact Hrun|]. split; [exact Hw|].
  rewrite Hh. cbn. by rewrite Hst.
Defined.

(** ** The authentication handler, on success and on a fault *)

(** X5. When the authentication action reports success,
    [handle_authentication_required] returns true and puts the session in
    state [ACTIVE]; every token of the result overwrites the token of the
    same key and the other tokens are kept; the cookies of the result are
    added after the cookies the session has; counter and reset time are
    untouched.  The session is persisted, so the storage holds it as it is
    in memory. *)
Theorem authentication_success E l s r w :
  heap w !! l = Some s ->
  gateway E (calls w) (AuthPrompt (platform s)) = Returns r ->
  is_success r = true ->
  exists s' w',
    handle_authentication_required E l w = (Ok true, w') /\
    heap w' !! l = Some s' /\
    state s' = ACTIVE /\
    (forall k, auth_tokens s' !! k =
       match default ∅ (res_auth_tokens r) !! k with
       | Some v => Some v
       | None => auth_tokens s !! k
       end) /\
    cookies s' = cookies s ++ default [] (res_cookies r) /\
    request_count s' = request_count s /\
    rate_limit_reset s' = rate_limit_reset s /\
    stored_session (session_file s') (storage w') = Some s' /\
    active_sessions w' = active_sessions w.
Proof.
  intros Hl Hg Hr. rewrite (handle_auth_run E l s w Hl).
  unfold auth_handled. rewrite Hg, Hr.
  exists (authenticated r s). eexists. split; [reflexivity|].
  cbn [heap storage active_sessions].
  split; [apply list_lookup_insert_eq; by eapply lookup_lt_Some|].
  split; [done|]. split.
  { intros k.
    change (auth_tokens (authenticated r s))
      with (default ∅ (res_auth_tokens r) ∪ auth_tokens s).
    rewrite lookup_union.
    destruct (default ∅ (res_auth_tokens r) !! k), (auth_tokens s !! k); done. }
  split; [done|]. split; [done|]. split; [done|].
  split; [apply stored_session_write|done].
Qed.

Lemma authentication_success_witness :
  heap (chatgpt_world (source_env fast_clock)) !! 0%nat
    = Some (session_at 0 (chatgpt_world (source_env fast_clock))) /\
  is_success placeholder_result = true /\
  exists s' w',
    handle_authentication_required (source_env fast_clock) 0
      (chatgpt_world (source_env fast_clock)) = (Ok true, w') /\
    heap w' !! 0%nat = Some s' /\ state s' = ACTIVE.
Proof.
  assert (Hl : heap (chatgpt_world (source_env fast_clock)) !! 0%nat
    = Some (session_at 0 (chatgpt_world (source_env fast_clock))))
    by (vm_compute; reflexivity).
  assert (Hr : is_success placeholder_result = true) by reflexivity.
  split; [exact Hl|]. split; [exact Hr|].
  destruct (authentication_success (source_env fast_clock) 0 _
    placeholder_result _ Hl eq_refl Hr) as (s' & w' & Hrun & Hh & Hst & _).
  exists s', w'. split_and!; done.
Defined.

(** X6. When the authentication action itself raises,
    [handle_authentication_required] raises in turn, naming the platform
    and the fault; the session is left in state [ERROR], and nothing is
    written to the storage. *)
Theorem authentication_fault E l s msg w :
  heap w !! l = Some s ->
  gateway E (calls w) (AuthPrompt (platform s)) = Raises msg ->
  exists w',
    handle_authentication_required E l w
      = (Raise (AuthFailed (platform s) (GatewayFault msg)), w') /\
    heap w' !! l = Some (set_state ERROR s) /\
    storage w' = storage w /\
    active_sessions w' = active_sessions w.
Proof.
  intros Hl Hg. rewrite (handle_auth_run E l s w Hl).
  unfold auth_handled. rewrite Hg. eexists. split; [reflexivity|].
  cbn. split; [|done]. apply list_lookup_insert_eq. by eapply lookup_lt_Some.
Qed.

Lemma authentication_fault_witness :
  heap (chatgpt_world (auth_raising_env fast_clock)) !! 0%nat
    = Some (session_at 0 (chatgpt_world (auth_raising_env fast_clock))) /\
  exists w',
    handle_authentication_required (auth_raising_env fast_clock) 0
      (chatgpt_world (auth_raising_env fast_clock))
      = (Raise (AuthFailed "chatgpt" (GatewayFault "connection reset")), w') /\
    state <$> heap w' !! 0%nat = Some ERROR.
Proof.
  assert (Hl : heap (chatgpt_world (auth_raising_env fast_clock)) !! 0%nat
    = Some (session_at 0 (chatgpt_world (auth_raising_env fast_clock))))
    by (vm_compute; reflexivity).
  split; [exact Hl|].
  destruct (authentication_fault (auth_raising_env fast_clock) 0 _
    "connection reset" _ Hl eq_refl) as (w' & Hrun & Hh & _).
  exists w'. split; [exact Hrun|]. rewrite Hh. reflexivity.
Defined.

(** ** The three paths of [get_session] *)

Lemma refreshed_platform s : platform (refreshed s) = platform s.
Proof. unfold refreshed. by destruct (decide _). Qed.

Lemma before_probe_lookup l s w :
  heap w !! l = Some s -> heap (before_probe l s w) !! l = Some (refreshed s).
Proof.
  intros Hl. unfold before_probe, refreshed.
  destruct (decide (state s = RATE_LIMITED)); cbn; [|done].
  apply list_lookup_insert_eq. by eapply lookup_lt_Some.
Qed.

Lemma before_probe_heap l s w :
  heap w !! l = Some s ->
  heap (before_probe l s w) = <[l := refreshed s]> (heap w).
Proof.
  intros Hl. unfold before_probe, refreshed.
  destruct (decide (state s = RATE_LIMITED)); cbn; [done|].
  symmetry. by apply list_insert_id.
Qed.

Lemma before_probe_same l s w :
  storage (before_probe l s w) = storage w /\
  active_sessions (before_probe l s w) = active_sessions w /\
  session_locks (before_probe l s w) = session_locks w /\
  calls (before_probe l s w) = calls w.
Proof. unfold before_probe. by destruct (decide _). Qed.

Lemma before_probe_locks l s k w :
  ticks (before_probe l s (with_locks k w)) = ticks (before_probe l s w).
Proof. unfold before_probe. by destruct (decide _). Qed.

(** the validity check of a session that is not turned down and whose
    platform is configured *)
Lemma validate_probed E l s cfg w :
  heap w !! l = Some s ->
  rejects E w s = false ->
  platform_configs !! platform s = Some cfg ->
  _validate_session E l w =
    (Ok (probe_answer (gateway E (calls w) (probe_prompt s cfg))),
     performed (probe_prompt s cfg) (before_probe l s w)).
Proof.
  intros Hl Hrej Hcfg. destruct (validate_spec E l s w Hl) as [_ H2].
  rewrite H2 by done.
  rewrite (probe_run E l (refreshed s) cfg).
  - rewrite refreshed_platform.
    by destruct (before_probe_same l s w) as (_ & _ & _ & ->).
  - by apply before_probe_lookup.
  - by rewrite refreshed_platform.
Qed.

(** X7. A cache hit.  When the session cached for a platform is not
    turned down by the validity check and the connectivity probe
    succeeds, [get_session] returns that very object; the call adds one
    to its request counter (counted from 0 if the session had just
    recovered from a rate limit), persists it, so that the storage holds
    it as it is in memory, and leaves the cache as it is. *)
Theorem cache_hit E p l s cfg w :
  active_sessions w !! p = Some l ->
  heap w !! l = Some s ->
  rejects E w s = false ->
  platform_configs !! platform s = Some cfg ->
  probe_answer (gateway E (calls w) (probe_prompt s cfg)) = true ->
  exists s' w',
    get_session E p false w = (Ok l, w') /\
    heap w' !! l = Some s' /\
    s' = bumped (clock E (ticks (before_probe l s w)))
                (clock E (S (ticks (before_probe l s w)))) (refreshed s) /\
    request_count s' = request_count (refreshed s) + 1 /\
    stored_session (session_file s') (storage w') = Some s' /\
    active_sessions w' = active_sessions w /\
    (forall l', l' <> l -> heap w' !! l' = heap w !! l').
Proof.
  intros Ha Hl Hrej Hcfg Hprobe.
  rewrite get_session_run. unfold get_session_lookup, get_session_cached.
  munfold. cbn [active_sessions with_locks]. rewrite Ha.
  rewrite (validate_probed E l s cfg (with_locks _ w)) by done.
  cbn [calls with_locks]. rewrite Hprobe.
  set (w1 := performed _ _).
  assert (Hl1 : heap w1 !! l = Some (refreshed s)).
  { subst w1. cbn. by apply (before_probe_lookup l s (with_locks _ w)). }
  rewrite (update_activity_run E l (refreshed s) w1 Hl1).
  do 2 eexists. split; [reflexivity|]. cbn [heap storage active_sessions].
  split; [apply list_lookup_insert_eq; by eapply lookup_lt_Some|].
  split.
  { subst w1. cbn [ticks performed]. by rewrite before_probe_locks. }
  split; [unfold bumped; cbn; by destruct (_ >=? _)|].
  split; [apply stored_session_write|].
  split.
  { subst w1. cbn. by destruct (before_probe_same l s (with_locks ({[p]} ∪ session_locks w) w)) as (_ & -> & _). }
  intros l' Hne. rewrite list_lookup_insert_ne by done.
  subst w1. cbn. rewrite (before_probe_heap l s (with_locks _ w)) by done.
  by rewrite list_lookup_insert_ne.
Qed.

Lemma cache_hit_witness :
  active_sessions (chatgpt_world (source_env fast_clock)) !! "chatgpt" = Some 0%nat /\
  heap (chatgpt_world (source_env fast_clock)) !! 0%nat
    = Some (session_at 0 (chatgpt_world (source_env fast_clock))) /\
  rejects (source_env fast_clock) (chatgpt_world (source_env fast_clock))
    (session_at 0 (chatgpt_world (source_env fast_clock))) = false /\
  exists s' w',
    get_session (source_env fast_clock) "chatgpt" false
      (chatgpt_world (source_env fast_clock)) = (Ok 0%nat, w') /\
    heap w' !! 0%nat = Some s' /\ request_count s' = 1.
Proof.
  assert (Ha : active_sessions (chatgpt_world (source_env fast_clock)) !! "chatgpt"
    = Some 0%nat) by (vm_compute; reflexivity).
  assert (Hl : heap (chatgpt_world (source_env fast_clock)) !! 0%nat
    = Some (session_at 0 (chatgpt_world (source_env fast_clock))))
    by (vm_compute; reflexivity).
  assert (Hr : rejects (source_env fast_clock) (chatgpt_world (source_env fast_clock))
    (session_at 0 (chatgpt_world (source_env fast_clock))) = false)
    by (vm_compute; reflexivity).
  split; [exact Ha|]. split; [exact Hl|]. split; [exact Hr|].
  destruct (platform_configs !! "chatgpt") as [cfg|] eqn:Hc;
    [|vm_compute in Hc; discriminate].
  destruct (cache_hit (source_env fast_clock) "chatgpt" 0 _ cfg _ Ha Hl Hr Hc eq_refl)
    as (s' & w' & Hrun & Hh & _ & Hcount & _).
  exists s', w'. split; [exact Hrun|]. split; [exact Hh|].
  rewrite Hcount. vm_compute. reflexivity.
Defined.

Lemma restorable_locks E p k w :
  restorable E p (with_locks k w) = restorable E p w.
Proof. reflexivity. Qed.

(** the world in which an adopted session is returned *)
Lemma adoption_run E p s cfg w :
  active_sessions w !! p = None ->
  restorable E p w = Some s ->
  rejects E w s = false ->
  platform_configs !! platform s = Some cfg ->
  probe_answer (gateway E (calls w) (probe_prompt s cfg)) = true ->
  get_session E p false w =
    (Ok (length (heap w)),
     mkWorld (heap w ++ [refreshed s])
       (<[p := length (heap w)]> (active_sessions w))
       ({[p]} ∪ session_locks w) (storage w)
       (ticks (before_probe (length (heap w)) s w)) (S (calls w))
       (actions w ++ [probe_prompt s cfg])).
Proof.
  intros Ha Hr Hrej Hcfg Hprobe.
  rewrite get_session_run.
  unfold get_session_lookup, get_session_cached, get_session_restored.
  munfold. cbn [active_sessions with_locks]. rewrite Ha.
  rewrite (restore_some E p _ s) by (by rewrite restorable_locks).
  cbn [heap with_locks].
  set (w1 := with_heap _ _).
  assert (Hl1 : heap w1 !! length (heap w) = Some s) by apply lookup_snoc.
  rewrite (validate_probed E _ s cfg w1 Hl1 Hrej Hcfg).
  change (calls w1) with (calls w). rewrite Hprobe.
  f_equal. unfold with_active, performed.
  cbn [heap active_sessions session_locks storage ticks calls].
  rewrite (before_probe_heap _ s w1 Hl1).
  destruct (before_probe_same (length (heap w)) s w1) as (-> & -> & -> & _).
  subst w1. cbn [heap active_sessions session_locks storage with_heap with_locks].
  rewrite insert_snoc. unfold before_probe.
  by destruct (decide _).
Qed.

(** X8. Adoption from the storage.  When nothing is cached for a
    platform, the most recent readable blob of the platform is not turned
    down by the validity check and the connectivity probe succeeds,
    [get_session] returns the stored session as a new object and caches
    it.  Unlike a cache hit, the call neither counts a request nor writes
    to the storage: the counter is the stored one (0 after a recovery from
    a rate limit). *)
Theorem restore_adoption E p s cfg w :
  active_sessions w !! p = None ->
  restorable E p w = Some s ->
  rejects E w s = false ->
  platform_configs !! platform s = Some cfg ->
  probe_answer (gateway E (calls w) (probe_prompt s cfg)) = true ->
  exists w',
    get_session E p false w = (Ok (length (heap w)), w') /\
    heap w' = heap w ++ [refreshed s] /\
    request_count (refreshed s)
      = (if decide (state s = RATE_LIMITED) then 0 else request_count s) /\
    active_sessions w' = <[p := length (heap w)]> (active_sessions w) /\
    storage w' = storage w.
Proof.
  intros Ha Hr Hrej Hcfg Hprobe.
  rewrite (adoption_run E p s cfg w Ha Hr Hrej Hcfg Hprobe).
  eexists. split; [reflexivity|]. cbn [heap active_sessions storage].
  split; [done|]. split; [|done].
  unfold refreshed, recovered. by destruct (decide _).
Qed.

Lemma restore_adoption_witness :
  restorable (source_env fast_clock) "chatgpt"
    (stored_world (storage (chatgpt_world (source_env fast_clock))))
    = Some (session_at 0 (chatgpt_world (source_env fast_clock))) /\
  rejects (source_env fast_clock)
    (stored_world (storage (chatgpt_world (source_env fast_clock))))
    (session_at 0 (chatgpt_world (source_env fast_clock))) = false /\
  exists w',
    get_session (source_env fast_clock) "chatgpt" false
      (stored_world (storage (chatgpt_world (source_env fast_clock))))
      = (Ok 0%nat, w') /\
    request_count <$> heap w' !! 0%nat = Some 0 /\
    length (storage w') = 1%nat.
Proof.
  assert (Hr : restorable (source_env fast_clock) "chatgpt"
    (stored_world (storage (chatgpt_world (source_env fast_clock))))
    = Some (session_at 0 (chatgpt_world (source_env fast_clock))))
    by (vm_compute; reflexivity).
  assert (Hrej : rejects (source_env fast_clock)
    (stored_world (storage (chatgpt_world (source_env fast_clock))))
    (session_at 0 (chatgpt_world (source_env fast_clock))) = false)
    by (vm_compute; reflexivity).
  split; [exact Hr|]. split; [exact Hrej|].
  destruct (platform_configs !! "chatgpt") as [cfg|] eqn:Hc;
    [|vm_compute in Hc; discriminate].
  assert (Ha : active_sessions
    (stored_world (storage (chatgpt_world (source_env fast_clock)))) !! "chatgpt"
    = None) by reflexivity.
  destruct (restore_adoption (source_env fast_clock) "chatgpt" _ cfg _
    Ha Hr Hrej Hc eq_refl) as (w' & Hrun & Hh & _ & _ & Hs).
  exists w'. split; [exact Hrun|]. rewrite Hh, Hs. split; vm_compute; reflexivity.
Defined.

(** X9. An unreadable blob is absorbed.  When nothing is cached for a
    platform and its most recent file cannot be unpickled, [get_session]
    is the creation path and nothing else: the call does not fail because
    of the file, and it does not fall back on an older file of the
    platform either. *)
Theorem unreadable_blob_absorbed E p f fs w :
  active_sessions w !! p = None ->
  glob E p (storage w) = Lists (f :: fs) ->
  content (max_by mtime f fs) = Corrupt ->
  get_session E p false w
    = get_session_created E p (with_locks ({[p]} ∪ session_locks w) w).
Proof.
  intros Ha Hf Hc. rewrite get_session_run.
  unfold get_session_lookup, get_session_cached, get_session_restored.
  munfold. cbn [active_sessions with_locks]. rewrite Ha.
  rewrite restore_run, restorable_locks. unfold restorable.
  cbn [storage with_locks]. by rewrite Hf, Hc.
Qed.

Lemma unreadable_blob_absorbed_witness :
  (exists f fs,
     glob (source_env fast_clock) "chatgpt"
       (storage (stored_world corrupt_latest)) = Lists (f :: fs) /\
     length fs = 1%nat /\
     content (max_by mtime f fs) = Corrupt) /\
  exists w',
    get_session (source_env fast_clock) "chatgpt" false (stored_world corrupt_latest)
      = (Ok 0%nat, w') /\
    request_count <$> heap w' !! 0%nat = Some 0 /\
    created_at <$> heap w' !! 0%nat = Some 1000000001.
Proof.
  assert (Hf : exists f fs,
     glob (source_env fast_clock) "chatgpt"
       (storage (stored_world corrupt_latest)) = Lists (f :: fs) /\
     length fs = 1%nat /\
     content (max_by mtime f fs) = Corrupt).
  { do 2 eexists. split; [vm_compute; reflexivity|]. split; reflexivity. }
  split; [exact Hf|]. destruct Hf as (f & fs & Hf & _ & Hc).
  assert (Ha : active_sessions (stored_world corrupt_latest) !! "chatgpt" = None)
    by reflexivity.
  rewrite (unreadable_blob_absorbed (source_env fast_clock) "chatgpt" f fs
    (stored_world corrupt_latest) Ha Hf Hc).
  eexists. split; [vm_compute; reflexivity|]. split; reflexivity.
Defined.

(** ** What a call of [get_session] leaves alone *)

Lemma validate_frame E l w :
  length (heap (_validate_session E l w).2) = length (heap w) /\
  forall l0, l0 <> l -> heap (_validate_session E l w).2 !! l0 = heap w !! l0.
Proof.
  destruct (heap w !! l) as [s|] eqn:Hl.
  - destruct (validate_spec E l s w Hl) as [H1 H2].
    destruct (rejects E w s).
    + destruct H1 as (n & _ & ->); done.
    + rewrite H2 by done.
      pose proof (probe_same E l (before_probe l s w)) as (-> & _).
      rewrite (before_probe_heap l s w Hl). split; [apply length_insert|].
      intros l0 Hne. by apply list_lookup_insert_ne.
  - unfold _validate_session. munfold. by rewrite Hl.
Qed.

Lemma restored_fresh E p f w r w' :
  get_session_restored E p f w = (r, w') ->
  (length (heap w) <= length (heap w'))%nat /\
  (forall l0 s0, heap w !! l0 = Some s0 -> heap w' !! l0 = Some s0) /\
  (forall l, r = Ok (Some l) ->
     l = length (heap w) /\ active_sessions w' !! p = Some l).
Proof.
  unfold get_session_restored.
  destruct f; [by intros [= <- <-]|].
  munfold. rewrite restore_run.
  destruct (glob E p (storage w)) as [fs0|msg0]; [|by intros [= <- <-]].
  destruct (restorable E p w) as [s|]; [|by intros [= <- <-]].
  set (w1 := with_heap _ _).
  destruct (validate_frame E (length (heap w)) w1) as [Hlen Hfr].
  assert (Hold : forall l0 s0, heap w !! l0 = Some s0 ->
            heap (_validate_session E (length (heap w)) w1).2 !! l0 = Some s0).
  { intros l0 s0 H0. pose proof (lookup_lt_Some _ _ _ H0).
    rewrite Hfr by lia. subst w1. cbn. by rewrite lookup_app_l. }
  assert (Hlen' : (length (heap w)
            <= length (heap (_validate_session E (length (heap w)) w1).2))%nat).
  { rewrite Hlen. subst w1. cbn. rewrite length_app. lia. }
  destruct (_validate_session E _ w1) as [[[|]|e] w2]; cbn in *;
    intros [= <- <-]; cbn; split_and!; try done.
  intros l [= <-]. split; [done|]. apply lookup_insert_eq.
Qed.

Lemma created_fresh E p w r w' :
  get_session_created E p w = (r, w') ->
  (forall l0 s0, heap w !! l0 = Some s0 -> heap w' !! l0 = Some s0) /\
  (forall l, r = Ok l ->
     l = length (heap w) /\ active_sessions w' !! p = Some l) /\
  (forall e, r = Raise e ->
     active_sessions w' = active_sessions w /\ storage w' = storage w).
Proof.
  rewrite get_session_created_run.
  destruct (created_heap E p w) as (s & Hh & _ & _ & _ & _ & _ & _ & _ & Hr).
  destruct (created_same E p w) as (Hs & Ha & _).
  destruct (created E p w) as [[l|e] w1]; cbn in *; intros [= <- <-]; cbn.
  - destruct Hr as [-> _]. split_and!; [|by intros l [= <-]; rewrite lookup_insert_eq|done].
    intros l0 s0 H0. rewrite Hh. by apply lookup_app_l_Some.
  - split_and!; [|done|done].
    intros l0 s0 H0. rewrite Hh. by apply lookup_app_l_Some.
Qed.

(** X10. A session that is cooling down is not handed out.  When the
    session cached for a platform is rate limited and the clock has not
    reached its reset time, [get_session] does not return it: whatever the
    call returns is an object allocated by the call (restored from the
    storage or newly created) and cached in its place, while the
    rate-limited object itself is left exactly as it is. *)
Theorem cooling_session_not_returned E p l s reset w :
  active_sessions w !! p = Some l ->
  heap w !! l = Some s ->
  state s = RATE_LIMITED ->
  rate_limit_reset s = Some reset ->
  clock E (S (ticks w)) < reset ->
  forall l' w',
    get_session E p false w = (Ok l', w') ->
    (length (heap w) <= l')%nat /\ l' <> l /\
    active_sessions w' !! p = Some l' /\
    heap w' !! l = Some s.
Proof.
  intros Ha Hl Hst Hreset Hcool l' w'.
  assert (Hrej : rejects E (with_locks ({[p]} ∪ session_locks w) w) s = true).
  { unfold rejects. rewrite Hreset, (bool_decide_eq_true_2 _ Hst). cbn.
    apply Z.ltb_lt in Hcool. rewrite Hcool. apply orb_true_r. }
  destruct (validate_spec E l s (with_locks ({[p]} ∪ session_locks w) w) Hl)
    as [H1 _].
  destruct (H1 Hrej) as (n & _ & Hv).
  rewrite get_session_run. unfold get_session_lookup, get_session_cached.
  munfold. cbn [active_sessions with_locks]. rewrite Ha, Hv.
  cbn [fst snd]. set (w1 := with_active _ _).
  pose proof (lookup_lt_Some _ _ _ Hl) as Hlt.
  destruct (get_session_restored E p false w1) as [[[l1|]|e] w2] eqn:Hr;
    destruct (restored_fresh E p false w1 _ _ Hr) as (Hlen & Hold & Hsome);
    [| |done].
  - intros [= <- <-]. destruct (Hsome l1 eq_refl) as [-> Hc].
    subst w1. cbn in *. split_and!; [lia|lia|done|by apply Hold].
  - intros Hcr.
    destruct (created_fresh E p w2 _ _ Hcr) as (Hold2 & Hok & _).
    destruct (Hok l' eq_refl) as [-> Hc]. subst w1. cbn in *.
    split_and!; [lia|lia|done|by apply Hold2, Hold].
Qed.

Lemma cooling_session_not_returned_witness :
  state <$> heap (limited_world (source_env fast_clock)) !! 0%nat
    = Some RATE_LIMITED /\
  (get_session (source_env fast_clock) "chatgpt" false
     (limited_world (source_env fast_clock))).1 = Ok 2%nat /\
  active_sessions
    (get_session (source_env fast_clock) "chatgpt" false
       (limited_world (source_env fast_clock))).2 !! "chatgpt" = Some 2%nat /\
  heap (get_session (source_env fast_clock) "chatgpt" false
          (limited_world (source_env fast_clock))).2 !! 0%nat
    = Some (session_at 0 (limited_world (source_env fast_clock))).
Proof.
  assert (Hrun : get_session (source_env fast_clock) "chatgpt" false
     (limited_world (source_env fast_clock))
     = (Ok 2%nat, (get_session (source_env fast_clock) "chatgpt" false
                     (limited_world (source_env fast_clock))).2))
    by (vm_compute; reflexivity).
  split; [vm_compute; reflexivity|]. split; [by rewrite Hrun|].
  assert (Ha : active_sessions (limited_world (source_env fast_clock)) !! "chatgpt"
    = Some 0%nat) by (vm_compute; reflexivity).
  assert (Hl : heap (limited_world (source_env fast_clock)) !! 0%nat
    = Some (session_at 0 (limited_world (source_env fast_clock))))
    by (vm_compute; reflexivity).
  assert (Hst : state (session_at 0 (limited_world (source_env fast_clock)))
    = RATE_LIMITED) by (vm_compute; reflexivity).
  assert (Hreset : rate_limit_reset
    (session_at 0 (limited_world (source_env fast_clock))) = Some 2800000007)
    by (vm_compute; reflexivity).
  assert (Hcool : clock (source_env fast_clock)
    (S (ticks (limited_world (source_env fast_clock)))) < 2800000007)
    by (vm_compute; reflexivity).
  destruct (cooling_session_not_returned (source_env fast_clock) "chatgpt" 0
    _ _ _ Ha Hl Hst Hreset Hcool _ _ Hrun) as (_ & _ & Hc & Hold).
  split; [exact Hc|exact Hold].
Defined.

(** ** Forcing a new session *)

Lemma forced_lookup E p w : get_session_lookup E p true w = (Ok None, w).
Proof.
  unfold get_session_lookup, get_session_cached, get_session_restored.
  munfold. by destruct (active_sessions w !! p).
Qed.

(** X11. Forcing a new session.  With [force_new], whatever is cached
    or stored for the platform is ignored.  When the platform is
    configured and the initialization action reports success, the call
    returns a new object in state [ACTIVE], with a request count of 0 and
    no reset time, the quota of the configuration, an expiry that is the
    clock reading taken for it plus the configured lifetime, and the
    cookies, tokens and storage maps of the result (empty where the result
    has none); the object becomes the cached session of the platform and
    is persisted as it is in memory. *)
Theorem forced_session E p url cfg r w :
  platform_urls !! p = Some url ->
  platform_configs !! p = Some cfg ->
  gateway E (calls w) (init_prompt p url cfg) = Returns r ->
  is_success r = true ->
  exists s' w',
    get_session E p true w = (Ok (length (heap w)), w') /\
    heap w' = heap w ++ [s'] /\
    platform s' = p /\
    state s' = ACTIVE /\ request_count s' = 0 /\ rate_limit_reset s' = None /\
    max_requests_per_hour s' = cfg_max_requests_per_hour cfg /\
    created_at s' = clock E (S (ticks w)) /\
    expires_at s'
      = clock E (S (S (ticks w))) + Time.hours (session_lifetime_hours cfg) /\
    cookies s' = default [] (res_session_cookies r) /\
    auth_tokens s'
      = default ∅ (res_extracted_data r ≫= ed_auth_tokens) /\
    local_storage s'
      = default ∅ (res_extracted_data r ≫= ed_local_storage) /\
    session_storage s'
      = default ∅ (res_extracted_data r ≫= ed_session_storage) /\
    active_sessions w' = <[p := length (heap w)]> (active_sessions w) /\
    stored_session (session_file s') (storage w') = Some s'.
Proof.
  intros Hu Hc Hg Hr.
  rewrite get_session_run, forced_lookup, get_session_created_run.
  unfold created. rewrite Hu, Hc. cbn [calls with_locks]. rewrite Hg, Hr.
  unfold session_at. cbn [heap with_locks]. rewrite lookup_snoc.
  cbn [default]. do 2 eexists. split; [reflexivity|].
  cbn [heap storage active_sessions].
  split; [reflexivity|].
  unfold new_session_of, fresh_session. rewrite Hc.
  split_and!; try done; try apply stored_session_write;
    cbn; by destruct (res_extracted_data r).
Qed.

Lemma forced_session_witness :
  platform_urls !! "gemini" = Some "https://gemini.google.com" /\
  is_success placeholder_result = true /\
  exists s' w',
    get_session (source_env fast_clock) "gemini" true
      (chatgpt_world (source_env fast_clock)) = (Ok 1%nat, w') /\
    heap w' !! 1%nat = Some s' /\
    max_requests_per_hour s' = 100 /\
    expires_at s' - created_at s' = Time.hours 8 + 1.
Proof.
  assert (Hu : platform_urls !! "gemini" = Some "https://gemini.google.com")
    by (vm_compute; reflexivity).
  assert (Hr : is_success placeholder_result = true) by reflexivity.
  split; [exact Hu|]. split; [exact Hr|].
  destruct (platform_configs !! "gemini") as [cfg|] eqn:Hc;
    [|vm_compute in Hc; discriminate].
  destruct (forced_session (source_env fast_clock) "gemini" _ cfg
    placeholder_result (chatgpt_world (source_env fast_clock)) Hu Hc eq_refl Hr)
    as (s' & w' & Hrun & Hh & _ & _ & _ & _ & Hm & Hca & Hex & _).
  exists s', w'.
  replace (length (heap (chatgpt_world (source_env fast_clock)))) with 1%nat
    in Hrun by (vm_compute; reflexivity).
  split; [exact Hrun|]. split.
  { rewrite Hh.
    replace 1%nat with (length (heap (chatgpt_world (source_env fast_clock))))
      by (vm_compute; reflexivity).
    apply lookup_snoc. }
  rewrite Hm, Hex, Hca. vm_compute in Hc. injection Hc as <-.
  split; vm_compute; reflexivity.
Defined.

(** X12. When a forced creation fails, the session that was cached for
    the platform stays cached: the cache and the storage are what they
    were before the call, and no existing session object is touched. *)
Theorem forced_failure_keeps_cache E p w e w' :
  get_session E p true w = (Raise e, w') ->
  active_sessions w' = active_sessions w /\
  storage w' = storage w /\
  forall l0 s0, heap w !! l0 = Some s0 -> heap w' !! l0 = Some s0.
Proof.
  rewrite get_session_run, forced_lookup. intros Hcr.
  destruct (created_fresh E p _ _ _ Hcr) as (Hold & _ & Hfail).
  destruct (Hfail e eq_refl) as [Ha Hs]. split_and!; done.
Qed.

Lemma forced_failure_keeps_cache_witness :
  (get_session (one_init_env fast_clock) "chatgpt" true
     (chatgpt_world (one_init_env fast_clock))).1
    = Raise (InitFailed "chatgpt" (InitResultFailure ["remote action failed"])) /\
  active_sessions
    (get_session (one_init_env fast_clock) "chatgpt" true
       (chatgpt_world (one_init_env fast_clock))).2 !! "chatgpt" = Some 0%nat.
Proof.
  assert (Hrun : get_session (one_init_env fast_clock) "chatgpt" true
     (chatgpt_world (one_init_env fast_clock))
     = (Raise (InitFailed "chatgpt" (InitResultFailure ["remote action failed"])),
        (get_session (one_init_env fast_clock) "chatgpt" true
           (chatgpt_world (one_init_env fast_clock))).2))
    by (vm_compute; reflexivity).
  split; [by rewrite Hrun|].
  destruct (forced_failure_keeps_cache _ _ _ _ _ Hrun) as (Ha & _).
  rewrite Ha. vm_compute. reflexivity.
Defined.

(** ** The cleanup sweep *)

Lemma expired_at_false h t l :
  expired_at h t l = false <-> forall s, h !! l = Some s -> t <= expires_at s.
Proof.
  unfold expired_at. destruct (h !! l) as [s|].
  - rewrite Z.gtb_ltb, Z.ltb_ge. split; [by intros H s' [= <-]|eauto].
  - split; [done|done].
Qed.

Lemma cleanup_run E w :
  cleanup_expired_sessions E w =
    (Ok tt,
     mkWorld (heap w)
       (filter (fun kv => ¬ Is_true (expired_at (heap w) (clock E (ticks w)) kv.2))
          (active_sessions w))
       (session_locks w)
       (filter (fun f => ¬ Is_true (glob_pkl (fname f)
                            && (mtime f <? clock E (ticks w) - Time.days 7)))
          (storage w))
       (S (ticks w)) (calls w) (actions w)).
Proof. reflexivity. Qed.

(** X13. [cleanup_expired_sessions] never fails and applies two
    independent tests at one clock reading [t]: a cache entry is kept
    exactly when its session is not past its expiry at [t], whatever its
    state, and a file is kept exactly when it is not a [.pkl] file
    modified more than 7 days before [t], whatever session it holds.  The
    session objects themselves are not touched. *)
Theorem cleanup_effect E w :
  (cleanup_expired_sessions E w).1 = Ok tt /\
  (forall p l,
     active_sessions (cleanup_expired_sessions E w).2 !! p = Some l <->
     active_sessions w !! p = Some l /\
     forall s, heap w !! l = Some s -> clock E (ticks w) <= expires_at s) /\
  (forall f,
     f ∈ storage (cleanup_expired_sessions E w).2 <->
     f ∈ storage w /\
     ~ (glob_pkl (fname f) = true /\
        mtime f < clock E (ticks w) - Time.days 7)) /\
  heap (cleanup_expired_sessions E w).2 = heap w /\
  session_locks (cleanup_expired_sessions E w).2 = session_locks w.
Proof.
  rewrite cleanup_run. cbn [fst snd heap active_sessions storage session_locks].
  split; [done|]. split; [|split; [|done]].
  - intros p l. rewrite map_lookup_filter_Some. cbn [snd].
    rewrite <- expired_at_false.
    destruct (expired_at (heap w) (clock E (ticks w)) l); cbn;
      intuition discriminate.
  - intros f. rewrite list_elem_of_filter. split.
    + intros [Hk Hin]. split; [done|]. intros [Hg Hm]. apply Hk.
      rewrite Hg. cbn. apply Is_true_true. by apply Z.ltb_lt.
    + intros [Hin Hk]. split; [|done]. intros Hb. apply Hk.
      apply andb_prop_elim in Hb as [Hg Hm].
      split; [by apply Is_true_true|]. apply Z.ltb_lt. by apply Is_true_true.
Qed.

(** ** What every operation keeps *)

Lemma same_identity_refl s : same_identity s s.
Proof. unfold same_identity. split_and!; reflexivity. Qed.

Lemma same_identity_trans s1 s2 s3 :
  same_identity s1 s2 -> same_identity s2 s3 -> same_identity s1 s3.
Proof.
  unfold same_identity.
  intros (A1 & A2 & A3 & A4 & A5 & A6 & A7 & A8)
         (B1 & B2 & B3 & B4 & B5 & B6 & B7 & B8).
  split_and!; congruence.
Qed.

Lemma evolves_refl w : evolves w w.
Proof. split; [|done]. intros l s Hl. exists s. split; [done|apply same_identity_refl]. Qed.

Lemma evolves_trans w1 w2 w3 : evolves w1 w2 -> evolves w2 w3 -> evolves w1 w3.
Proof.
  intros [H1 K1] [H2 K2]. split; [|set_solver].
  intros l s Hl. destruct (H1 l s Hl) as (s2 & Hl2 & Hi2).
  destruct (H2 l s2 Hl2) as (s3 & Hl3 & Hi3).
  exists s3. split; [done|]. by eapply same_identity_trans.
Qed.

Lemma evolves_same w w' :
  heap w' = heap w -> session_locks w ⊆ session_locks w' -> evolves w w'.
Proof.
  intros Hh Hk. split; [|done]. intros l s Hl. exists s. rewrite Hh.
  split; [done|apply same_identity_refl].
Qed.

Lemma evolves_update w l s s' :
  heap w !! l = Some s -> same_identity s s' ->
  evolves w (with_heap (<[l := s']> (heap w)) w).
Proof.
  intros Hl Hi. split; [|done]. cbn. intros l0 s0 Hl0.
  destruct (decide (l0 = l)) as [->|Hne].
  - exists s'. rewrite list_lookup_insert_eq by (by eapply lookup_lt_Some).
    split; [done|]. congruence.
  - exists s0. rewrite list_lookup_insert_ne by done.
    split; [done|apply same_identity_refl].
Qed.

Lemma evolves_alloc w s : evolves w (with_heap (heap w ++ [s]) w).
Proof.
  split; [|done]. cbn. intros l0 s0 Hl0. exists s0.
  split; [by apply lookup_app_l_Some|apply same_identity_refl].
Qed.

Lemma evolves_transition : Transition evolves.
Proof.
  split.
  - apply evolves_refl.
  - apply evolves_trans.
  - intros w n. by apply evolves_same.
  - intros w n. by apply evolves_same.
  - intros w fs. by apply evolves_same.
  - apply evolves_update.
  - apply evolves_alloc.
Qed.

Lemma quiet_refl w : quiet w w.
Proof. split; [apply evolves_refl|done]. Qed.

Lemma quiet_trans w1 w2 w3 : quiet w1 w2 -> quiet w2 w3 -> quiet w1 w3.
Proof.
  intros (H1 & A1 & K1) (H2 & A2 & K2).
  split; [by eapply evolves_trans|]. split; congruence.
Qed.

Lemma quiet_transition : Transition quiet.
Proof.
  split.
  - apply quiet_refl.
  - apply quiet_trans.
  - intros w n. split; [by apply evolves_same|done].
  - intros w n. split; [by apply evolves_same|done].
  - intros w fs. split; [by apply evolves_same|done].
  - intros w l s s' Hl Hi. split; [by eapply evolves_update|done].
  - intros w s. split; [apply evolves_alloc|done].
Qed.

Section Pres.
Context {R : World -> World -> Prop} (HR : Transition R).

Lemma Pres_ret {A} (a : A) : Pres R (mret a).
Proof. intros w. apply (tr_refl R HR). Qed.

Lemma Pres_raise {A} e : Pres R (@raise A e).
Proof. intros w. apply (tr_refl R HR). Qed.

Lemma Pres_bind {A B} (m : M A) (k : A -> M B) :
  Pres R m -> (forall a, Pres R (k a)) -> Pres R (m ≫= k).
Proof.
  intros Hm Hk w. specialize (Hm w). unfold mbind, M_bind, bind.
  destruct (m w) as [[a|e] w1]; [|done].
  eapply (tr_trans R HR); [exact Hm|apply Hk].
Qed.

Lemma Pres_try {A} (m : M A) (h : Exn -> M A) :
  Pres R m -> (forall e, Pres R (h e)) -> Pres R (try_except m h).
Proof.
  intros Hm Hh w. specialize (Hm w). unfold try_except.
  destruct (m w) as [[a|e] w1]; [done|].
  eapply (tr_trans R HR); [exact Hm|apply Hh].
Qed.

Lemma Pres_get : Pres R get.
Proof. intros w. apply (tr_refl R HR). Qed.

Lemma Pres_now E : Pres R (now E).
Proof. intros w. apply (tr_ticks R HR). Qed.

Lemma Pres_int_time E : Pres R (int_time E).
Proof. intros w. apply (tr_ticks R HR). Qed.

Lemma Pres_deref l : Pres R (deref l).
Proof. intros w. unfold deref. destruct (heap w !! l); apply (tr_refl R HR). Qed.

Lemma Pres_update l f :
  (forall s, same_identity s (f s)) -> Pres R (update l f).
Proof.
  intros Hf w. unfold update. destruct (heap w !! l) as [s|] eqn:Hl.
  - by apply (tr_update R HR w l s (f s)).
  - apply (tr_refl R HR).
Qed.

Lemma Pres_alloc s : Pres R (alloc s).
Proof. intros w. apply (tr_alloc R HR). Qed.

Lemma Pres_action E p : Pres R (_execute_computer_action E p).
Proof.
  intros w. unfold _execute_computer_action.
  destruct (gateway E (calls w) p); apply (tr_performed R HR).
Qed.

Lemma Pres_write (g : World -> list File) :
  Pres R (modify (fun w => with_storage (g w) w)).
Proof. intros w. apply (tr_storage R HR). Qed.

Ltac pres :=
  repeat first
    [ match goal with H : _ |- _ => apply H end
    | apply Pres_ret | apply Pres_raise | apply Pres_get | apply Pres_now
    | apply Pres_int_time | apply Pres_deref | apply Pres_alloc
    | apply Pres_action | apply Pres_write
    | apply Pres_update; intros ?; unfold same_identity; split_and!; reflexivity
    | apply Pres_bind; [|intros ?]
    | apply Pres_try; [|intros ?]
    | case_match ].

Lemma Pres_generate_session_id E p : Pres R (_generate_session_id E p).
Proof. unfold _generate_session_id. pres. Qed.

Lemma Pres_generate_fingerprint E p : Pres R (_generate_fingerprint E p).
Proof. unfold _generate_fingerprint. pres. Qed.

Lemma Pres_persist_session E l : Pres R (_persist_session E l).
Proof. unfold _persist_session. pres. Qed.

Lemma Pres_restore_session E p : Pres R (_restore_session E p).
Proof. unfold _restore_session. pres. Qed.

Lemma Pres_test_session_connectivity E l :
  Pres R (_test_session_connectivity E l).
Proof. unfold _test_session_connectivity. pres. Qed.

Lemma Pres_validate_session E l : Pres R (_validate_session E l).
Proof.
  pose proof (Pres_test_session_connectivity E l).
  unfold _validate_session. pres.
Qed.

Lemma Pres_update_session_activity E l : Pres R (_update_session_activity E l).
Proof.
  pose proof (Pres_persist_session E l).
  unfold _update_session_activity. pres.
Qed.

Lemma Pres_process_session_init_result l r :
  Pres R (_process_session_init_result l r).
Proof. unfold _process_session_init_result. pres. Qed.

Lemma Pres_initialize_session E l : Pres R (_initialize_session E l).
Proof.
  pose proof (fun r => Pres_process_session_init_result l r).
  unfold _initialize_session. pres.
Qed.

Lemma Pres_create_new_session E p : Pres R (_create_new_session E p).
Proof.
  pose proof (Pres_generate_session_id E p).
  pose proof (Pres_generate_fingerprint E p).
  pose proof (fun l => Pres_initialize_session E l).
  unfold _create_new_session. cbv zeta. pres.
Qed.

Lemma Pres_handle_rate_limit E l msg : Pres R (handle_rate_limit E l msg).
Proof.
  pose proof (Pres_persist_session E l).
  unfold handle_rate_limit. cbv zeta. pres.
Qed.

Lemma Pres_handle_authentication_required E l :
  Pres R (handle_authentication_required E l).
Proof.
  pose proof (Pres_persist_session E l).
  unfold handle_authentication_required. pres.
Qed.
End Pres.

Ltac pres_with HR :=
  repeat first
    [ match goal with H : _ |- _ => apply H end
    | apply (Pres_ret HR) | apply (Pres_raise HR) | apply (Pres_get HR)
    | apply (Pres_now HR) | apply (Pres_int_time HR) | apply (Pres_deref HR)
    | apply (Pres_alloc HR) | apply (Pres_action HR) | apply (Pres_write HR)
    | apply (Pres_bind HR); [|intros ?]
    | apply (Pres_try HR); [|intros ?]
    | case_match ].

Lemma Pres_evolves_active (g : World -> gmap string nat) :
  Pres evolves (modify (fun w => with_active (g w) w)).
Proof. intros w. by apply evolves_same. Qed.

Lemma Pres_evolves_locks p :
  Pres evolves (modify (fun w => with_locks ({[p]} ∪ session_locks w) w)).
Proof. intros w. apply evolves_same; [done|]. cbn. set_solver. Qed.

Lemma evolves_get_session_cached E p f : Pres evolves (get_session_cached E p f).
Proof.
  pose proof (Pres_validate_session evolves_transition E).
  pose proof (Pres_update_session_activity evolves_transition E).
  pose proof Pres_evolves_active.
  unfold get_session_cached. pres_with evolves_transition.
Qed.

Lemma evolves_get_session_restored E p f :
  Pres evolves (get_session_restored E p f).
Proof.
  pose proof (Pres_validate_session evolves_transition E).
  pose proof (Pres_restore_session evolves_transition E).
  pose proof Pres_evolves_active.
  unfold get_session_restored. pres_with evolves_transition.
Qed.

Lemma evolves_get_session_created E p : Pres evolves (get_session_created E p).
Proof.
  pose proof (Pres_create_new_session evolves_transition E).
  pose proof (Pres_persist_session evolves_transition E).
  pose proof Pres_evolves_active.
  unfold get_session_created. pres_with evolves_transition.
Qed.

Lemma evolves_get_session E p f : Pres evolves (get_session E p f).
Proof.
  pose proof (evolves_get_session_cached E).
  pose proof (evolves_get_session_restored E).
  pose proof (evolves_get_session_created E).
  pose proof Pres_evolves_locks.
  unfold get_session, get_session_lookup. pres_with evolves_transition.
Qed.

Lemma evolves_run_op E o w : evolves w (run_op E o w).
Proof.
  destruct o as [p f|l msg|l| |]; cbn [run_op].
  - apply evolves_get_session.
  - apply (Pres_handle_rate_limit evolves_transition).
  - apply (Pres_handle_authentication_required evolves_transition).
  - rewrite cleanup_run. by apply evolves_same.
  - apply evolves_refl.
Qed.

(** X14. No operation ever removes a session object or changes what it
    was created with: after any sequence of public operations, from any
    world, every session object is still there with the platform,
    identifier, creation and expiry times, quota, user agent, viewport and
    fingerprint it had (so an expiry is never extended), and every lock
    that was recorded still is. *)
Theorem objects_keep_identity E os w : evolves w (run_ops E os w).
Proof.
  revert w. induction os as [|o os IH]; intros w.
  - apply evolves_refl.
  - cbn. eapply evolves_trans; [apply evolves_run_op|apply IH].
Qed.

(** ** The contract of [get_session] *)

Lemma quiet_validate E l w : quiet w (_validate_session E l w).2.
Proof. apply (Pres_validate_session quiet_transition). Qed.

Lemma cached_contract E p f w r w1 :
  get_session_cached E p f w = (r, w1) ->
  session_locks w1 = session_locks w /\
  match r with
  | Ok (Some l) =>
      active_sessions w !! p = Some l /\
      active_sessions w1 = active_sessions w /\ is_Some (heap w1 !! l)
  | Ok None =>
      active_sessions w1 = active_sessions w \/
      active_sessions w1 = delete p (active_sessions w)
  | Raise _ => active_sessions w1 = active_sessions w
  end.
Proof.
  unfold get_session_cached. munfold.
  destruct (active_sessions w !! p) as [l|] eqn:Ha;
    [|intros [= <- <-]; split; [done|by left]].
  destruct f; [intros [= <- <-]; split; [done|by left]|].
  destruct (quiet_validate E l w) as (Hev & Ha2 & Hk2).
  destruct (_validate_session E l w) as [[[|]|e] w2] eqn:Hv; cbn in *.
  - destruct (validate_true E l w w2 Hv) as (s' & Hs' & _).
    rewrite (update_activity_run E l s' w2 Hs'). cbn.
    intros [= <- <-]. cbn. split; [done|]. split_and!; [done..|].
    exists (bumped (clock E (ticks w2)) (clock E (S (ticks w2))) s').
    apply list_lookup_insert_eq. by eapply lookup_lt_Some.
  - intros [= <- <-]. cbn. split; [done|]. right. by rewrite Ha2.
  - intros [= <- <-]. done.
Qed.

Lemma restored_contract E p f w r w1 :
  get_session_restored E p f w = (r, w1) ->
  session_locks w1 = session_locks w /\
  match r with
  | Ok (Some l) =>
      active_sessions w1 = <[p := l]> (active_sessions w) /\
      is_Some (heap w1 !! l)
  | _ => active_sessions w1 = active_sessions w
  end.
Proof.
  unfold get_session_restored.
  destruct f; [by intros [= <- <-]|].
  munfold. rewrite restore_run.
  destruct (glob E p (storage w)) as [fs0|msg0]; [|by intros [= <- <-]].
  destruct (restorable E p w) as [s|]; [|by intros [= <- <-]].
  set (w1' := with_heap _ _).
  destruct (quiet_validate E (length (heap w)) w1') as ([Hev _] & Ha2 & Hk2).
  destruct (Hev (length (heap w)) s (lookup_snoc _ _)) as (s' & Hs' & _).
  destruct (_validate_session E _ w1') as [[[|]|e] w2]; cbn in *;
    intros [= <- <-]; cbn; split; try done.
  split; [by rewrite Ha2|by exists s'].
Qed.

Lemma created_contract E p w r w1 :
  get_session_created E p w = (r, w1) ->
  session_locks w1 = session_locks w /\
  match r with
  | Ok l =>
      active_sessions w1 = <[p := l]> (active_sessions w) /\
      is_Some (heap w1 !! l)
  | Raise _ => active_sessions w1 = active_sessions w
  end.
Proof.
  rewrite get_session_created_run.
  destruct (created_heap E p w) as (s & Hh & _ & _ & _ & _ & _ & _ & _ & Hr).
  destruct (created_same E p w) as (Hs & Ha & Hk & _).
  destruct (created E p w) as [[l|e] w2]; cbn in *; intros [= <- <-]; cbn;
    [|done].
  destruct Hr as [-> _]. split; [done|]. split; [by rewrite Ha|].
  exists s. rewrite Hh. apply lookup_snoc.
Qed.

(** the cache after a call of [get_session]: the entry of the platform
    may have been dropped, and is the returned session when there is one *)
Lemma get_session_cache E p f w :
  session_locks (get_session E p f w).2 = {[p]} ∪ session_locks w /\
  exists a,
    (a = active_sessions w \/ a = delete p (active_sessions w)) /\
    match (get_session E p f w).1 with
    | Ok l =>
        is_Some (heap (get_session E p f w).2 !! l) /\
        (active_sessions (get_session E p f w).2 = a /\ a !! p = Some l \/
         active_sessions (get_session E p f w).2 = <[p := l]> a)
    | Raise _ => active_sessions (get_session E p f w).2 = a
    end.
Proof.
  rewrite get_session_run. unfold get_session_lookup. munfold.
  set (w0 := with_locks _ w).
  destruct (get_session_cached E p f w0) as [[[l|]|e] w1] eqn:Hc;
    destruct (cached_contract E p f w0 _ _ Hc) as [Hk1 Hc1]; cbn [fst snd].
  - destruct Hc1 as (Hp & Ha & Hl). split; [by rewrite Hk1|].
    exists (active_sessions w). split; [by left|]. split; [done|].
    left. split; [by rewrite Ha|done].
  - assert (Ha : active_sessions w1 = active_sessions w \/
                 active_sessions w1 = delete p (active_sessions w)) by done.
    destruct (get_session_restored E p f w1) as [[[l|]|e] w2] eqn:Hr;
      destruct (restored_contract E p f w1 _ _ Hr) as [Hk2 Hr2]; cbn [fst snd].
    + destruct Hr2 as [Hr2 Hl]. split; [by rewrite Hk2, Hk1|].
      exists (active_sessions w1). split; [done|]. split; [done|by right].
    + destruct (get_session_created E p w2) as [[l|e] w3] eqn:Hn;
        destruct (created_contract E p w2 _ _ Hn) as [Hk3 Hn3]; cbn [fst snd].
      * destruct Hn3 as [Hn3 Hl]. split; [by rewrite Hk3, Hk2, Hk1|].
        exists (active_sessions w1). split; [done|]. split; [done|].
        right. by rewrite Hn3, Hr2.
      * split; [by rewrite Hk3, Hk2, Hk1|].
        exists (active_sessions w1). split; [done|]. by rewrite Hn3, Hr2.
    + split; [by rewrite Hk2, Hk1|].
      exists (active_sessions w1). split; [done|]. done.
  - split; [by rewrite Hk1|].
    exists (active_sessions w). split; [by left|]. done.
Qed.

(** X15. What a call of [get_session] does to the cache, whatever path
    it takes.  It records the lock of the platform and leaves the entries
    of every other platform as they are.  When it returns a session, that
    session is an existing object and is the one now cached for the
    platform; when it fails, the entry of the platform is as it was, or
    has been dropped. *)
Theorem get_session_contract E p f w :
  wp (get_session E p f)
     (fun r w' =>
        session_locks w' = {[p]} ∪ session_locks w /\
        (forall q, q <> p -> active_sessions w' !! q = active_sessions w !! q) /\
        match r with
        | Ok l => active_sessions w' !! p = Some l /\ is_Some (heap w' !! l)
        | Raise _ =>
            active_sessions w' !! p = active_sessions w !! p \/
            active_sessions w' !! p = None
        end) w.
Proof.
  unfold wp. destruct (get_session_cache E p f w) as (Hk & a & Ha & Hr).
  split; [done|].
  assert (Hfr : forall q, q <> p -> a !! q = active_sessions w !! q).
  { intros q Hq. destruct Ha as [->| ->]; [done|by rewrite lookup_delete_ne]. }
  assert (Hp : a !! p = active_sessions w !! p \/ a !! p = None).
  { destruct Ha as [->| ->]; [by left|right; apply lookup_delete_eq]. }
  destruct (get_session E p f w).1 as [l|e].
  - destruct Hr as (Hl & [[Hs Hpl]|Hs]); rewrite Hs; [done|].
    split; [|split; [apply lookup_insert_eq|done]].
    intros q Hq. rewrite lookup_insert_ne by done. by apply Hfr.
  - rewrite Hr. done.
Qed.

(** ** The cache and the statistics *)

Lemma cache_live_quiet w w' : quiet w w' -> cache_live w -> cache_live w'.
Proof.
  intros ([Hev _] & Ha & _) Hlive p l Hp. rewrite Ha in Hp.
  destruct (Hlive p l Hp) as [s Hs].
  destruct (Hev l s Hs) as (s' & Hs' & _). by exists s'.
Qed.

Lemma cache_live_get_session E p f w :
  cache_live w -> cache_live (get_session E p f w).2.
Proof.
  intros Hlive q l Hq.
  destruct (get_session_cache E p f w) as (_ & a & Ha & Hr).
  destruct (evolves_get_session E p f w) as [Hev _].
  assert (Hold : forall q0 l0, a !! q0 = Some l0 ->
                 is_Some (heap (get_session E p f w).2 !! l0)).
  { intros q0 l0 H0.
    assert (Hw : active_sessions w !! q0 = Some l0).
    { destruct Ha as [->| ->]; [done|].
      by apply lookup_delete_Some in H0 as [_ ?]. }
    destruct (Hlive q0 l0 Hw) as [s Hs].
    destruct (Hev l0 s Hs) as (s' & Hs' & _). by exists s'. }
  destruct (get_session E p f w).1 as [l'|e].
  - destruct Hr as (Hl & [[Hs _]|Hs]); rewrite Hs in Hq; [by apply (Hold q)|].
    destruct (decide (q = p)) as [->|Hne].
    + rewrite lookup_insert_eq in Hq. by injection Hq as <-.
    + rewrite lookup_insert_ne in Hq by done. by apply (Hold q).
  - rewrite Hr in Hq. by apply (Hold q).
Qed.

Lemma cache_live_run_op E o w : cache_live w -> cache_live (run_op E o w).
Proof.
  destruct o as [p f|l msg|l| |]; cbn [run_op].
  - apply cache_live_get_session.
  - apply cache_live_quiet, (Pres_handle_rate_limit quiet_transition).
  - apply cache_live_quiet,
      (Pres_handle_authentication_required quiet_transition).
  - rewrite cleanup_run. intros Hlive p l Hp. cbn in *.
    apply map_lookup_filter_Some in Hp as [Hp _]. by apply (Hlive p l).
  - done.
Qed.

Lemma cache_live_run_ops E os w : cache_live w -> cache_live (run_ops E os w).
Proof.
  revert w. induction os as [|o os IH]; intros w Hlive; [done|].
  cbn. by apply IH, cache_live_run_op.
Qed.

(** X16. After any sequence of public operations on a new manager,
    every cache entry points to a session object, and [get_session_stats]
    reports on exactly the cached platforms: each cached platform has an
    entry, made of the state name, the three timestamps, the request count
    and the reset time of its cached object, and no other platform has
    one. *)
Theorem stats_cover_cache E os :
  exists stats,
    get_session_stats (run_ops E os init_world)
      = (Ok stats, run_ops E os init_world) /\
    (forall p l,
       active_sessions (run_ops E os init_world) !! p = Some l ->
       exists s, heap (run_ops E os init_world) !! l = Some s /\
                 stats !! p = Some (stats_of s)) /\
    (forall p,
       active_sessions (run_ops E os init_world) !! p = None ->
       stats !! p = None).
Proof.
  assert (Hlive : cache_live (run_ops E os init_world)).
  { apply cache_live_run_ops. intros p l Hp. cbn in Hp.
    by rewrite lookup_empty in Hp. }
  eexists. split; [reflexivity|]. split.
  - intros p l Hp. destruct (Hlive p l Hp) as [s Hs]. exists s.
    split; [done|]. rewrite lookup_omap, Hp. cbn. by rewrite Hs.
  - intros p Hp. by rewrite lookup_omap, Hp.
Qed.

(** ** Two sweeps in a row *)

(** X17. When the clock does not go backwards between them, two calls
    of [cleanup_expired_sessions] in a row leave the cache, the storage
    and the session objects as the second call alone would have left
    them: what the first sweep removes, the second would remove too. *)
Theorem cleanup_twice E w :
  clock E (ticks w) <= clock E (S (ticks w)) ->
  (cleanup_expired_sessions E (cleanup_expired_sessions E w).2).2
    = (cleanup_expired_sessions E (with_ticks (S (ticks w)) w)).2.
Proof.
  intros Hclk. rewrite !cleanup_run. cbn. f_equal.
  - rewrite map_filter_filter. apply map_filter_ext.
    intros p l _. cbn. unfold expired_at.
    destruct (heap w !! l) as [s|]; [|tauto].
    destruct (Z.gtb_spec (clock E (S (ticks w))) (expires_at s));
      destruct (Z.gtb_spec (clock E (ticks w)) (expires_at s)); cbn;
      try tauto; lia.
  - rewrite list_filter_filter. apply list_filter_iff.
    intros f. cbn. destruct (glob_pkl (fname f)); cbn; [|tauto].
    destruct (Z.ltb_spec (mtime f) (clock E (S (ticks w)) - Time.days 7));
      destruct (Z.ltb_spec (mtime f) (clock E (ticks w) - Time.days 7)); cbn;
      try tauto; lia.
Qed.

Lemma cleanup_twice_witness :
  clock (source_env jumping_clock)
    (ticks (chatgpt_world (source_env jumping_clock)))
  <= clock (source_env jumping_clock)
       (S (ticks (chatgpt_world (source_env jumping_clock)))) /\
  active_sessions
    (cleanup_expired_sessions (source_env jumping_clock)
       (cleanup_expired_sessions (source_env jumping_clock)
          (chatgpt_world (source_env jumping_clock))).2).2 = ∅ /\
  storage
    (cleanup_expired_sessions (source_env jumping_clock)
       (cleanup_expired_sessions (source_env jumping_clock)
          (chatgpt_world (source_env jumping_clock))).2).2 = [].
Proof.
  assert (Hclk : clock (source_env jumping_clock)
    (ticks (chatgpt_world (source_env jumping_clock)))
  <= clock (source_env jumping_clock)
       (S (ticks (chatgpt_world (source_env jumping_clock)))))
    by (vm_compute; discriminate).
  split; [exact Hclk|].
  rewrite (cleanup_twice (source_env jumping_clock)
             (chatgpt_world (source_env jumping_clock)) Hclk).
  split; vm_compute; reflexivity.
Defined.

(** ** File patterns and platform names *)







(** ** Which file is restored *)

Lemma max_by_head {A} (key : A -> Z) (x : A) (l : list A) :
  key x <= key (max_by key x l).
Proof.
  revert x. induction l as [|a l IH]; intros x; cbn; [lia|].
  destruct (key x <? key a) eqn:Hlt; [|apply IH].
  apply Z.ltb_lt in Hlt. specialize (IH a). lia.
Qed.

Lemma max_by_max {A} (key : A -> Z) (x : A) (l : list A) z :
  z ∈ x :: l -> key z <= key (max_by key x l).
Proof.
  revert x. induction l as [|a l IH]; intros x Hz; cbn.
  - apply list_elem_of_singleton in Hz. rewrite Hz. lia.
  - destruct (key x <? key a) eqn:Hlt.
    + apply Z.ltb_lt in Hlt.
      apply elem_of_cons in Hz as [Hz|Hz]; [|by apply IH].
      rewrite Hz. pose proof (max_by_head key a l). lia.
    + apply Z.ltb_ge in Hlt.
      apply elem_of_cons in Hz as [Hz|Hz];
        [rewrite Hz; apply max_by_head|].
      apply elem_of_cons in Hz as [Hz|Hz]; [|apply IH; by right].
      rewrite Hz. pose proof (max_by_head key x l). lia.
Qed.

(** X19. [_restore_session] writes nothing: the storage and the cache
    are as they were.  It fails only when [Path.glob] rejects the pattern
    of the name, which does not happen for a plain name (a name without
    the characters [*], [?], [[] and [/]), whose pattern selects the files
    named after it.  When it gives a session, the session is a new object
    read from a selected file whose modification time is the latest among
    the selected files; it gives none when no file is selected, or when
    that latest file cannot be read or holds a dictionary that the
    constructor rejects. *)
Theorem restore_most_recent E p w :
  (plain_name p = true -> matcher E p = Selects (glob_platform p)) /\
  match _restore_session E p w with
  | (Raise e, w') =>
      w' = w /\ plain_name p = false /\
      exists msg, matcher E p = Unsupported msg /\ e = ListingFault msg
  | (Ok (Some l), w') =>
      exists m f d s,
        matcher E p = Selects m /\
        f ∈ storage w /\ m (fname f) = true /\
        (forall g, g ∈ storage w -> m (fname g) = true -> mtime g <= mtime f) /\
        content f = Pickled d /\ SessionData_of_dict d = Some s /\
        l = length (heap w) /\ w' = with_heap (heap w ++ [s]) w
  | (Ok None, w') =>
      w' = w /\
      exists m,
        matcher E p = Selects m /\
        ((forall g, g ∈ storage w -> m (fname g) = false) \/
         exists f,
           f ∈ storage w /\ m (fname f) = true /\
           (forall g, g ∈ storage w -> m (fname g) = true ->
              mtime g <= mtime f) /\
           forall d, content f = Pickled d -> SessionData_of_dict d = None)
  end.
Proof.
  split; [intros Hp; unfold matcher; by rewrite Hp|].
  unfold _restore_session, glob. munfold.
  destruct (matcher E p) as [m|msg] eqn:Hm.
  2:{ split; [done|]. split; [|eauto].
      unfold matcher in Hm. by destruct (plain_name p). }
  destruct (filter _ (storage w)) as [|f fs] eqn:Hf.
  - split; [done|]. exists m. split; [done|]. left.
    intros g Hg. destruct (m (fname g)) eqn:Hglob; [|done].
    assert (Hin : g ∈ filter (fun f => Is_true (m (fname f))) (storage w))
      by (apply list_elem_of_filter; by rewrite Hglob).
    rewrite Hf in Hin. by apply elem_of_nil in Hin.
  - assert (Hlatest : max_by mtime f fs ∈ storage w /\
              m (fname (max_by mtime f fs)) = true /\
              forall g, g ∈ storage w -> m (fname g) = true ->
                mtime g <= mtime (max_by mtime f fs)).
    { pose proof (max_by_elem mtime f fs) as Hin. rewrite <- Hf in Hin.
      apply list_elem_of_filter in Hin as [Hg Hin].
      split; [done|]. split; [by apply Is_true_true|].
      intros g Hgin Hglob. apply max_by_max. rewrite <- Hf.
      apply list_elem_of_filter. by rewrite Hglob. }
    destruct Hlatest as (Hin & Hglob & Hmax).
    destruct (content (max_by mtime f fs)) as [d|] eqn:Hc.
    + destruct (SessionData_of_dict d) as [s|] eqn:Hd.
      * exists m, (max_by mtime f fs), d, s. split_and!; done.
      * split; [done|]. exists m. split; [done|]. right.
        exists (max_by mtime f fs). split_and!; [done..|].
        intros d' Hd'. rewrite Hc in Hd'. by injection Hd' as <-.
    + split; [done|]. exists m. split; [done|]. right.
      exists (max_by mtime f fs). split_and!; [done..|].
      intros d' Hd'. by rewrite Hc in Hd'.
Qed.

(** ** Unknown platforms, whatever is held for them *)

Lemma validate_cases E l s w :
  heap w !! l = Some s ->
  match _validate_session E l w with
  | (Ok true, w1) =>
      is_Some (platform_configs !! platform s) /\
      heap w1 !! l = Some (refreshed s) /\ storage w1 = storage w
  | (Ok false, w1) => storage w1 = storage w
  | (Raise e, w1) =>
      platform_configs !! platform s = None /\ e = KeyError (platform s)
  end.
Proof.
  intros Hl. destruct (validate_spec E l s w Hl) as [H1 H2].
  destruct (rejects E w s) eqn:Hrej.
  { destruct (H1 eq_refl) as (n & _ & ->). done. }
  destruct (platform_configs !! platform s) as [cfg|] eqn:Hc.
  - rewrite (validate_probed E l s cfg w Hl Hrej Hc).
    destruct (before_probe_same l s w) as (Hs & _).
    destruct (probe_answer _); [|done].
    split; [eauto|]. split; [|done]. cbn. by apply before_probe_lookup.
  - rewrite H2 by done.
    rewrite (probe_unknown E l (refreshed s));
      [by rewrite refreshed_platform|by apply before_probe_lookup|
       by rewrite refreshed_platform].
Qed.

Lemma cached_unknown E p f w :
  (forall l, active_sessions w !! p = Some l -> is_Some (heap w !! l)) ->
  match get_session_cached E p f w with
  | (Ok (Some l), w1) =>
      f = false /\
      exists s s', held E p w s /\ is_Some (platform_configs !! platform s) /\
        heap w1 !! l = Some s' /\ platform s' = platform s
  | (Ok None, w1) => storage w1 = storage w
  | (Raise e, w1) =>
      f = false /\
      exists s, held E p w s /\ platform_configs !! platform s = None /\
        e = KeyError (platform s)
  end.
Proof.
  intros Hwf. unfold get_session_cached. munfold.
  destruct (active_sessions w !! p) as [l|] eqn:Ha; [|done].
  destruct f; [done|]. destruct (Hwf l eq_refl) as [s Hl].
  assert (Hheld : held E p w s) by (left; eauto).
  pose proof (validate_cases E l s w Hl) as Hv.
  destruct (_validate_session E l w) as [[[|]|e] w2].
  - destruct Hv as (Hc & Hl2 & Hs).
    rewrite (update_activity_run E l (refreshed s) w2 Hl2). cbn.
    split; [done|]. eexists s, _. split_and!; [done..| |].
    + apply list_lookup_insert_eq. by eapply lookup_lt_Some.
    + unfold bumped. cbn. destruct (_ >=? _); apply refreshed_platform.
  - done.
  - destruct Hv as [Hc ->]. split; [done|]. by exists s.
Qed.

Lemma restored_unknown E p f w :
  match get_session_restored E p f w with
  | (Ok (Some l), w1) =>
      f = false /\
      exists s s', restorable E p w = Some s /\
        is_Some (platform_configs !! platform s) /\
        heap w1 !! l = Some s' /\ platform s' = platform s
  | (Ok None, w1) => True
  | (Raise e, w1) =>
      f = false /\
      ((exists s, restorable E p w = Some s /\
          platform_configs !! platform s = None /\
          e = KeyError (platform s)) \/
       (exists msg, glob E p (storage w) = Fails msg /\ e = ListingFault msg))
  end.
Proof.
  unfold get_session_restored. destruct f; [done|].
  munfold. rewrite restore_run.
  destruct (glob E p (storage w)) as [fs|msg] eqn:Hg; [|split; [done|right; eauto]].
  destruct (restorable E p w) as [s|] eqn:Hr; [|done].
  pose proof (validate_cases E (length (heap w)) s
    (with_heap (heap w ++ [s]) w) (lookup_snoc _ _)) as Hv.
  destruct (_validate_session E _ _) as [[[|]|e] w2].
  - destruct Hv as (Hc & Hl2 & Hs). cbn. split; [done|].
    exists s, (refreshed s). split_and!; [done..|apply refreshed_platform].
  - done.
  - destruct Hv as [Hc ->]. split; [done|]. left. by exists s.
Qed.

Lemma held_same E p w w' s :
  storage w' = storage w -> active_sessions w' = active_sessions w ->
  heap w' = heap w -> held E p w' s <-> held E p w s.
Proof.
  intros Hs Ha Hh. unfold held.
  by rewrite Ha, Hh, (restorable_same E p w w' Hs).
Qed.

Lemma lookup_unknown E p f w :
  (forall l, active_sessions w !! p = Some l -> is_Some (heap w !! l)) ->
  match get_session_lookup E p f w with
  | (Ok (Some l), w1) =>
      f = false /\
      exists s s', held E p w s /\ is_Some (platform_configs !! platform s) /\
        heap w1 !! l = Some s' /\ platform s' = platform s
  | (Ok None, w1) => True
  | (Raise e, w1) =>
      f = false /\
      ((exists s, held E p w s /\ platform_configs !! platform s = None /\
          e = KeyError (platform s)) \/
       (exists msg, glob E p (storage w) = Fails msg /\ e = ListingFault msg))
  end.
Proof.
  intros Hwf. unfold get_session_lookup. munfold.
  pose proof (cached_unknown E p f w Hwf) as Hc.
  destruct (get_session_cached E p f w) as [[[l|]|e] w1]; cbn.
  - done.
  - pose proof (restored_unknown E p f w1) as Hr.
    rewrite (restorable_same E p w w1 Hc), Hc in Hr.
    destruct (get_session_restored E p f w1) as [[[l|]|e] w2]; [|done|].
    + destruct Hr as (Hf & s & s' & Hh & Hrest). split; [done|].
      exists s, s'. split; [by right|done].
    + destruct Hr as (Hf & [(s & Hh & Hrest)|Hr]); (split; [done|]).
      * left. exists s. split; [by right|done].
      * by right.
  - destruct Hc as (Hf & s & Hh & Hcfg & ->). split; [done|]. left. eauto.
Qed.

(** C8, as amended.  For a platform absent from the configuration table
    the creation path builds the session from the defaults (at most 60
    requests an hour, and an expiry 24 hours after the clock reading taken
    for it), but initialization rejects the platform as unknown and leaves
    the new object in state [INITIALIZING]: [get_session] never returns a
    session of that platform.  Either the call fails, with that error,
    with the key error that the connectivity probe raises for a held
    session of an unconfigured platform, or with the error of the file
    listing for a name that is not plain, and then nothing is written to
    the storage and the cache gets no entry; or it returns a session of
    another, configured platform that was held under the name (cached
    under it, or stored in a file that the pattern of the name selects).
    In particular it fails whenever no session of another platform is
    held under the name. *)
Theorem unknown_target_rejected E p f w :
  platform_configs !! p = None ->
  cache_live w ->
  (forall w1,
     max_requests_per_hour (new_session_of E p w1) = 60 /\
     expires_at (new_session_of E p w1)
       = clock E (S (S (ticks w1))) + Time.hours 24 /\
     created_at (new_session_of E p w1) = clock E (S (ticks w1))) /\
  match get_session E p f w with
  | (Ok l, w') =>
      f = false /\
      exists s s',
        held E p w s /\ platform s <> p /\
        is_Some (platform_configs !! platform s) /\
        heap w' !! l = Some s' /\ platform s' = platform s
  | (Raise e, w') =>
      storage w' = storage w /\
      active_sessions w' ⊆ active_sessions w /\
      (e = UnknownPlatform p /\
       (exists w1,
          heap w' = heap w1 ++ [set_state INITIALIZING (new_session_of E p w1)])
       \/
       f = false /\
       (exists s, held E p w s /\ platform_configs !! platform s = None /\
          e = KeyError (platform s))
       \/
       f = false /\ plain_name p = false /\
       (exists msg, glob E p (storage w) = Fails msg /\ e = ListingFault msg))
  end /\
  ((forall s, held E p w s -> platform s = p) ->
   exists e w', get_session E p f w = (Raise e, w')).
Proof.
  intros Hc Hlive.
  split. { intros w1. unfold new_session_of, fresh_session. rewrite Hc. done. }
  assert (Hmain : match get_session E p f w with
    | (Ok l, w') =>
        f = false /\
        exists s s',
          held E p w s /\ platform s <> p /\
          is_Some (platform_configs !! platform s) /\
          heap w' !! l = Some s' /\ platform s' = platform s
    | (Raise e, w') =>
        storage w' = storage w /\
        active_sessions w' ⊆ active_sessions w /\
        (e = UnknownPlatform p /\
         (exists w1,
            heap w' = heap w1 ++ [set_state INITIALIZING (new_session_of E p w1)])
         \/
         f = false /\
         (exists s, held E p w s /\ platform_configs !! platform s = None /\
            e = KeyError (platform s))
         \/
         f = false /\ plain_name p = false /\
         (exists msg, glob E p (storage w) = Fails msg /\ e = ListingFault msg))
    end).
  { pose proof (get_session_post _ E p f w True_stable (World_all_True w)) as Hpost.
    unfold wp in Hpost. revert Hpost. rewrite get_session_run.
    set (w0 := with_locks ({[p]} ∪ session_locks w) w).
    assert (Hh0 : forall s, held E p w0 s <-> held E p w s)
      by (intros s; by apply held_same).
    pose proof (lookup_unknown E p f w0 (Hlive p)) as Hlk.
    destruct (get_session_lookup E p f w0) as [[[l|]|e] w1].
    - intros _. destruct Hlk as (Hf & s & s' & Hh & Hcfg & Hl & Hp).
      split; [done|]. exists s, s'. split_and!; [by apply Hh0| |done..].
      intros Heq. rewrite Heq, Hc in Hcfg. by destruct Hcfg.
    - rewrite get_session_created_run. unfold created.
      rewrite (unknown_platform_no_url p Hc). cbn.
      intros [_ [Hs Ha]]. split_and!; [done..|]. left. split; [done|].
      by exists w1.
    - cbn. intros [_ [Hs Ha]]. split_and!; [done..|]. right.
      destruct Hlk as (Hf & [(s & Hh & Hcfg & ->)|(msg & Hg & ->)]).
      + left. split; [done|]. exists s. split; [by apply Hh0|done].
      + right. split; [done|]. split; [|eauto].
        destruct (plain_name p) eqn:Hp; [|done].
        by rewrite (glob_plain E p _ Hp) in Hg. }
  split; [exact Hmain|]. intros Hheld.
  destruct (get_session E p f w) as [[l|e] w']; [|eauto].
  destruct Hmain as (_ & s & s' & Hh & Hne & _). by destruct (Hne (Hheld s Hh)).
Qed.

Lemma unknown_target_rejected_witness :
  platform_configs !! "claude" = None /\
  cache_live init_world /\
  exists e w',
    get_session (source_env fast_clock) "claude" false init_world = (Raise e, w') /\
    storage w' = [] /\ active_sessions w' ⊆ ∅.
Proof.
  assert (Hc : platform_configs !! "claude" = None) by (vm_compute; reflexivity).
  assert (Hlive : cache_live init_world).
  { intros p l Hl. cbn in Hl. by rewrite lookup_empty in Hl. }
  split; [exact Hc|]. split; [exact Hlive|].
  destruct (unknown_target_rejected (source_env fast_clock) "claude" false
    init_world Hc Hlive) as (_ & Hmain & Hfail).
  destruct Hfail as (e & w' & Hrun).
  - intros s [(l & Hl & _)|Hr]; [|vm_compute in Hr]; discriminate.
  - rewrite Hrun in Hmain. destruct Hmain as (Hs & Ha & _).
    exists e, w'. split_and!; done.
Defined.

(** ** Persisting and restoring *)




(** ** Calls in a row for one platform *)










